(** * AnalytiQ data hub page (src/pages/data_hub.py)

    A shallow embedding of the Streamlit page: the values it handles, the
    table it loads and filters, the widgets it draws and the calls it makes
    into the other modules, followed by the properties of the page. *)

From Stdlib Require Import List String Ascii ZArith Bool Lia DecimalString.
Import ListNotations.
Local Open Scope string_scope.
Local Open Scope Z_scope.

(** ** Python values *)

(** The scalars that reach this page: [None], integers and strings.  They
    are the cells of a table, the options of a selector and the values of a
    filter dictionary. *)
Inductive pyval : Type :=
| PyNone
| PyInt (z : Z)
| PyStr (s : string).

Definition pyval_eqb (a b : pyval) : bool :=
  match a, b with
  | PyNone, PyNone => true
  | PyInt x, PyInt y => Z.eqb x y
  | PyStr x, PyStr y => String.eqb x y
  | _, _ => false
  end.

(** Truth value of an object in [if x:]. *)
Definition truthy (v : pyval) : bool :=
  match v with
  | PyNone => false
  | PyInt z => negb (Z.eqb z 0)
  | PyStr s => negb (String.eqb s "")
  end.

(** ** Exceptions *)

Inductive exn : Type :=
| ModuleNotFoundError (name : string)
| CalledProcessError (returncode : Z)
| KeyError (key : string)
| AttributeError (msg : string)
| OtherError (cls msg : string).

Definition result (A : Type) : Type := (exn + A)%type.
Abbreviation Ok := (@inr exn _).
Abbreviation Raise := (@inl exn _).

Definition raised {A} (r : result A) : option exn :=
  match r with inl e => Some e | inr _ => None end.

(** ** Tables *)

(** A dataframe: named columns and rows of cells, a row holding one cell per
    column in the order of [columns]. *)
Record DataFrame : Type := mkDataFrame {
  columns : list string;
  rows : list (list pyval)
}.

(** Position of a label in the column index (the first one that matches). *)
Fixpoint get_loc (c : string) (cols : list string) : option nat :=
  match cols with
  | [] => None
  | k :: cols' =>
      if String.eqb k c then Some O
      else option_map S (get_loc c cols')
  end.

Definition cell (i : nat) (r : list pyval) : pyval := nth i r PyNone.

(** [df[column]] as a series: the cells under the label, [KeyError] for an
    unknown label.  A label that the index holds more than once selects a
    frame in pandas; where the page goes on to treat the selection as a
    series (line 166) that case is told apart by [repeated], below. *)
Definition getitem (df : DataFrame) (column : string) : result (list pyval) :=
  match get_loc column (columns df) with
  | None => Raise (KeyError column)
  | Some i => Ok (map (cell i) (rows df))
  end.

(** The cell of row [r] under the column labelled [c]. *)
Definition value_at (df : DataFrame) (c : string) (r : list pyval) : option pyval :=
  option_map (fun i => cell i r) (get_loc c (columns df)).

(** [series.unique()]: the distinct values in order of first appearance. *)
Fixpoint unique_from (seen : list pyval) (s : list pyval) : list pyval :=
  match s with
  | [] => []
  | x :: s' =>
      if existsb (pyval_eqb x) seen then unique_from seen s'
      else x :: unique_from (x :: seen) s'
  end.

Definition unique (s : list pyval) : list pyval := unique_from [] s.

(** Whether the index holds a label more than once. *)
Definition repeated (df : DataFrame) (column : string) : bool :=
  (1 <? count_occ string_dec (columns df) column)%nat.

(** [df[column].unique()]: [KeyError] for an unknown label; for a label held
    more than once [df[column]] is a frame, and a frame has no [unique];
    otherwise the distinct values of the column. *)
Definition column_unique (df : DataFrame) (column : string) : result (list pyval) :=
  match getitem df column with
  | inl e => Raise e
  | inr series =>
      if repeated df column
      then Raise (AttributeError "'DataFrame' object has no attribute 'unique'")
      else Ok (unique series)
  end.

(** [df[mask]]: the rows whose entry in a boolean mask is true. *)
Fixpoint select_rows (rs : list (list pyval)) (mask : list bool) : list (list pyval) :=
  match rs, mask with
  | r :: rs', b :: mask' =>
      if b then r :: select_rows rs' mask' else select_rows rs' mask'
  | _, _ => []
  end.

Definition select (df : DataFrame) (mask : list bool) : DataFrame :=
  {| columns := columns df; rows := select_rows (rows df) mask |}.

(** [df.head(n)]. *)
Definition head (df : DataFrame) (n : Z) : DataFrame :=
  {| columns := columns df; rows := firstn (Z.to_nat n) (rows df) |}.

(** ** Dictionaries *)

(** A Python [dict] with string keys: insertion ordered, one entry per key. *)
Definition dict (V : Type) : Type := list (string * V).

Fixpoint dict_get {V} (d : dict V) (k : string) : option V :=
  match d with
  | [] => None
  | (k', v) :: d' => if String.eqb k' k then Some v else dict_get d' k
  end.

(** [d[k] = v]: replaces the value of an existing key in place, appends a
    new key at the end. *)
Fixpoint dict_set {V} (d : dict V) (k : string) (v : V) : dict V :=
  match d with
  | [] => [(k, v)]
  | (k', v') :: d' =>
      if String.eqb k' k then (k', v) :: d' else (k', v') :: dict_set d' k v
  end.

Definition keys {V} (d : dict V) : list string := map fst d.

(** [d[k]] as an expression: [KeyError] for a missing key. *)
Definition subscript {V} (d : dict V) (k : string) : result V :=
  match dict_get d k with
  | Some v => Ok v
  | None => Raise (KeyError k)
  end.

(** ** data_utils *)

Module data_utils.

(** Modelled from the spec: [apply_filters] lives in the module
    [data_utils], which is not part of the sources at hand.  The spec calls
    its result the subset of the loaded table matching the user-chosen
    per-column equality filters, the filters being a dictionary from column
    name to a single allowed value or no filter.  The entries are applied one
    after the other, each keeping the rows whose cell equals the value. *)
Fixpoint apply_filters (df : DataFrame) (filters : dict pyval) : result DataFrame :=
  match filters with
  | [] => Ok df
  | (column, value) :: filters' =>
      match value with
      | PyNone => apply_filters df filters'
      | _ =>
          match getitem df column with
          | inl e => Raise e
          | inr s => apply_filters (select df (map (fun x => pyval_eqb x value) s)) filters'
          end
      end
  end.

(** Modelled from the spec: [load_data] lives in [data_utils] as well.  The
    spec describes a file-loading utility that reads a path into a tabular
    structure with an optional row limit, the table being truncated to the
    limit when one is given.  Reading the file is the argument [read]. *)
Definition load_data (read : string -> result DataFrame)
    (path : string) (limit : option Z) : result DataFrame :=
  match read path with
  | inl e => Raise e
  | inr df =>
      match limit with
      | None => Ok df
      | Some n => Ok (head df n)
      end
  end.

End data_utils.

(** ** The filtered view, in the words of the spec *)

(** A row passes a filter dictionary when, for each column whose filter
    value is not [None], its cell in that column equals the value. *)
Definition passes (cols : list string) (filters : dict pyval) (r : list pyval) : bool :=
  forallb
    (fun kv : string * pyval =>
       match snd kv with
       | PyNone => true
       | v =>
           match get_loc (fst kv) cols with
           | Some i => pyval_eqb (cell i r) v
           | None => false
           end
       end)
    filters.

Definition filtered_view (df : DataFrame) (filters : dict pyval) : DataFrame :=
  {| columns := columns df;
     rows := List.filter (passes (columns df) filters) (rows df) |}.

(** A dictionary as the sidebar builds it: every key is a column of the
    table and every value is [None] or one of the column's unique values. *)
Definition sidebar_dict (df : DataFrame) (filters : dict pyval) : Prop :=
  Forall
    (fun kv : string * pyval =>
       In (fst kv) (columns df) /\
       (snd kv = PyNone \/
        exists s, getitem df (fst kv) = Ok s /\ In (snd kv) (unique s)))
    filters.

(** ** What the page does to the outside *)

Record histogram_args : Type := mkHistogram {
  data_frame : DataFrame;
  x : string;
  color : option string;
  marginal : option string;
  nbins : option Z;
  title : string
}.

(** The figure [px.histogram] builds from its arguments. *)
Inductive Figure : Type :=
| Histogram (a : histogram_args).

(** The places a widget can be drawn in, other than the page itself. *)
Inductive container : Type :=
| Sidebar
| Column (i : nat)
| Tab (i : nat)
| Expander (label : string)
| Spinner (text : string).

(** Calls into the modules [data_utils] and [data_analysis] and into the
    charting library. *)
Inductive libcall : Type :=
| LoadData (path : string) (limit : option Z)
| ApplyFilters (df : DataFrame) (filters : dict pyval)
| GenerateSummary (df : DataFrame)
| DetailedStatistics (df : DataFrame)
| ColumnSummary (df : DataFrame) (column : string)
| PxHistogram (a : histogram_args)
| DisplayUnivariate (df : DataFrame) (column : string)
| DisplayBivariate (df : DataFrame) (x_column y_column : string)
| DisplayMultivariate (df : DataFrame) (selected : list string)
| DisplayCorrelation (df : DataFrame).

(** One observable action of a run.  [Call c None] is a call that returned,
    [Call c (Some e)] one that raised [e]; [Within c ev] is [ev] done inside
    the container [c]. *)
Inductive event : Type :=
| ImportModule (module : string)
| Subprocess (argv : list string)
| Title (s : string)
| Header (s : string)
| Subheader (s : string)
| Write (args : list pyval)
| Markdown (s : string)
| Metric (label : string) (v : pyval)
| Selectbox (label : string) (options : list pyval)
| NumberInput (label : string) (min_value value step : Z)
| Multiselect (label : string) (options : list pyval)
| Columns (n : nat)
| Tabs (names : list string)
| ShowDataframe (df : DataFrame)
| PlotlyChart (fig : Figure)
| GetDb
| QueryAll
| QueryFirst (name : string)
| Call (c : libcall) (outcome : option exn)
| Within (c : container) (ev : event).

(** The action itself, whatever container it happened in. *)
Fixpoint base (ev : event) : event :=
  match ev with
  | Within _ ev' => base ev'
  | _ => ev
  end.

(** The interpreter's state that the page can change: the modules an
    [import] finds. *)
Record world : Type := mkWorld {
  modules : list string
}.

(** ** Effects: a trace of events, the world, and exceptions *)

Definition M (A : Type) : Type := world -> list event * world * result A.

Definition ret {A} (a : A) : M A := fun w => ([], w, Ok a).

Definition bind {A B} (m : M A) (k : A -> M B) : M B :=
  fun w =>
    match m w with
    | (t, w', inl e) => (t, w', Raise e)
    | (t, w', inr a) =>
        match k a w' with
        | (t', w'', r) => ((t ++ t')%list, w'', r)
        end
    end.

Declare Scope page_scope.
Delimit Scope page_scope with page.
Notation "x <- m ;; k" := (bind m (fun x => k))
  (at level 61, m at next level, right associativity) : page_scope.
Notation "m ;; k" := (bind m (fun _ => k))
  (at level 61, right associativity) : page_scope.
Local Open Scope page_scope.

Definition emit (ev : event) : M unit := fun w => ([ev], w, Ok tt).

Definition raise {A} (e : exn) : M A := fun w => ([], w, Raise e).

(** The value of an expression that may raise. *)
Definition eval {A} (r : result A) : M A := fun w => ([], w, r).

(** A call into another module: logged with its outcome. *)
Definition call {A} (c : libcall) (r : result A) : M A :=
  fun w => ([Call c (raised r)], w, r).

(** [with c: body], and the methods of a container object. *)
Definition within {A} (c : container) (body : M A) : M A :=
  fun w =>
    match body w with
    | (t, w', r) => (map (Within c) t, w', r)
    end.

(** [try: body except <class>: handler]. *)
Definition try_except {A} (body : M A) (catches : exn -> bool) (handler : M A) : M A :=
  fun w =>
    match body w with
    | (t, w', inl e) =>
        if catches e then
          match handler w' with
          | (t', w'', r) => ((t ++ t')%list, w'', r)
          end
        else (t, w', Raise e)
    | ok => ok
    end.

(** ** The user, the database and the other modules *)

(** What the person in front of the page has set each widget to, by the
    widget's label: the position picked in a selector, the number typed
    into a number field (nothing typed yet: [None]) and the positions
    ticked in a multi-selector. *)
Record user : Type := mkUser {
  pick : string -> nat;
  entered : string -> option Z;
  picks : string -> list nat
}.

(** A row of the [Dataset] table. *)
Record Dataset : Type := mkDataset {
  name : string;
  filepath : string
}.

(** The functions of [data_analysis], the file reader under [load_data] and
    the two library functions the page calls itself.  Each may raise. *)
Record library : Type := mkLibrary {
  read_file : string -> result DataFrame;
  generate_summary : DataFrame -> result (dict pyval);
  detailed_statistics : DataFrame -> result DataFrame;
  column_summary : DataFrame -> string -> result (dict pyval);
  is_numeric_dtype : list pyval -> bool;
  px_histogram_error : histogram_args -> option exn;
  display_univariate_analysis : DataFrame -> string -> result unit;
  display_bivariate_analysis : DataFrame -> string -> string -> result unit;
  display_multivariate_analysis : DataFrame -> list string -> result unit;
  display_correlation_analysis : DataFrame -> result unit
}.

(** [str(n)] for an integer. *)
Definition str (n : Z) : string := NilZero.string_of_int (Z.to_int n).

(** ** Widgets *)

(** The option a selector returns: the one at the picked position, the
    first one when the position is off the list, nothing for no options. *)
Definition choose {A} (i : nat) (options : list A) : option A :=
  match options with
  | [] => None
  | first :: _ => Some (nth i options first)
  end.

Definition selectbox {A} (show : A -> pyval) (u : user)
    (label : string) (options : list A) : M (option A) :=
  fun w => ([Selectbox label (map show options)], w, Ok (choose (pick u label) options)).

(** [st.number_input]: the default until something is typed; a number
    below [min_value] is refused and the default stays. *)
Definition number_input (u : user) (label : string) (min_value value step : Z) : M Z :=
  fun w =>
    ([NumberInput label min_value value step], w,
     Ok (match entered u label with
         | None => value
         | Some n => if n <? min_value then value else n
         end)).

Fixpoint ticked {A} (positions : list nat) (options : list A) : list A :=
  match positions with
  | [] => []
  | i :: positions' =>
      match nth_error options i with
      | Some o => o :: ticked positions' options
      | None => ticked positions' options
      end
  end.

Definition multiselect (u : user) (label : string) (options : list string) : M (list string) :=
  fun w => ([Multiselect label (map PyStr options)], w, Ok (ticked (picks u label) options)).

(** ** Import of the charting package (lines 9-15) *)

Definition import_module (module : string) : M unit :=
  fun w =>
    ([ImportModule module], w,
     if existsb (String.eqb module) (modules w) then Ok tt
     else Raise (ModuleNotFoundError module)).

(** [subprocess.check_call(argv)]: runs the command, which leaves the world
    changed and an exit status; a status other than 0 raises. *)
Definition check_call (run : list string -> world -> world * Z) (argv : list string) : M unit :=
  fun w =>
    match run argv w with
    | (w', status) =>
        ([Subprocess argv], w',
         if Z.eqb status 0 then Ok tt else Raise (CalledProcessError status))
    end.

Definition is_ModuleNotFoundError (e : exn) : bool :=
  match e with
  | ModuleNotFoundError _ => true
  | _ => false
  end.

Definition import_plotly_express (run : list string -> world -> world * Z)
    (sys_executable : string) : M unit :=
  try_except
    (import_module "plotly.express")
    is_ModuleNotFoundError
    (check_call run [sys_executable; "-m"; "pip"; "install"; "plotly"] ;;
     import_module "plotly.express").

(** ** The page *)

Section Page.

Context (u : user) (lib : library).

Definition px_histogram (a : histogram_args) : M Figure :=
  call (PxHistogram a)
    (match px_histogram_error lib a with
     | Some e => Raise e
     | None => Ok (Histogram a)
     end).

(** [c.metric(key, summary[key])]. *)
Definition tile (c : container) (summary : dict pyval) (key : string) : M unit :=
  v <- eval (subscript summary key) ;;
  within c (emit (Metric key v)).

Definition display_summary_tiles (summary : dict pyval) : M unit :=
  emit (Columns 3) ;;
  tile (Column 0) summary "Number of Rows" ;;
  tile (Column 0) summary "Number of Columns" ;;
  tile (Column 1) summary "Missing Values" ;;
  tile (Column 1) summary "Duplicate Rows" ;;
  tile (Column 2) summary "Memory Usage (MB)".

(** [st.write(key + ":", summary[key])]. *)
Definition entry (summary : dict pyval) (key : string) : M unit :=
  v <- eval (subscript summary key) ;;
  emit (Write [PyStr (key ++ ":"); v]).

Definition numeric_histogram (df : DataFrame) (column : string) : histogram_args :=
  {| data_frame := df; x := column; color := None;
     marginal := Some "box"; nbins := Some 30;
     title := "Distribution of " ++ column |}.

Definition categorical_histogram (df : DataFrame) (column : string) : histogram_args :=
  {| data_frame := df; x := column; color := Some column;
     marginal := None; nbins := None;
     title := "Distribution of " ++ column |}.

Definition display_column_summary (df : DataFrame) (column : string) : M unit :=
  summary <- call (ColumnSummary df column) (column_summary lib df column) ;;
  emit (Columns 2) ;;
  within (Column 0)
    (entry summary "Data Type" ;;
     entry summary "Unique Values" ;;
     entry summary "Missing Values" ;;
     entry summary "Mean" ;;
     entry summary "Median" ;;
     entry summary "Mode" ;;
     entry summary "Standard Deviation" ;;
     entry summary "Min" ;;
     entry summary "Max") ;;
  within (Column 1)
    (emit (Subheader ("Distribution of " ++ column)) ;;
     series <- eval (getitem df column) ;;
     fig <- (if is_numeric_dtype lib series
             then px_histogram (numeric_histogram df column)
             else px_histogram (categorical_histogram df column)) ;;
     emit (PlotlyChart fig)).

Definition handle_data_summary_tab (filtered_data : DataFrame) : M unit :=
  emit (Header "Data Summary") ;;
  summary <- call (GenerateSummary filtered_data) (generate_summary lib filtered_data) ;;
  display_summary_tiles summary ;;
  emit (Header "Detailed Analysis") ;;
  within (Expander "View Detailed Analysis")
    (emit (Tabs ["Detailed Statistics"; "Column-Level Summary"]) ;;
     within (Tab 0)
       (emit (Subheader "Detailed Statistics") ;;
        stats <- call (DetailedStatistics filtered_data)
                   (detailed_statistics lib filtered_data) ;;
        emit (ShowDataframe stats)) ;;
     within (Tab 1)
       (emit (Subheader "Column-Level Summary") ;;
        selected_column <- selectbox PyStr u "Select Column" (columns filtered_data) ;;
        match selected_column with
        | Some column =>
            if truthy (PyStr column)
            then display_column_summary filtered_data column
            else ret tt
        | None => ret tt
        end)).

Definition analysis_options : list string :=
  ["Univariate Analysis"; "Bivariate Analysis"; "Multivariate Analysis";
   "Correlation Analysis"; "Cross Tabulation"].

Definition descriptions : dict string :=
  [("Univariate Analysis",
    "Analyze the distribution and summary statistics of individual variables.");
   ("Bivariate Analysis", "Analyze the relationship between two variables.");
   ("Multivariate Analysis", "Analyze relationships involving more than two variables.");
   ("Correlation Analysis", "Analyze correlations between numerical variables.");
   ("Cross Tabulation", "Analyze relationships between categorical variables.")].

(** The part of the analysis tab that depends on the option (lines 113-134). *)
Definition analysis_dispatch (filtered_data : DataFrame) (analysis_option : string) : M unit :=
  if String.eqb analysis_option "Univariate Analysis" then
    selected_column <- selectbox PyStr u "Select Column for Univariate Analysis"
                         (columns filtered_data) ;;
    match selected_column with
    | Some column =>
        if truthy (PyStr column)
        then call (DisplayUnivariate filtered_data column)
               (display_univariate_analysis lib filtered_data column)
        else ret tt
    | None => ret tt
    end
  else if String.eqb analysis_option "Bivariate Analysis" then
    emit (Columns 2) ;;
    x_column <- within (Column 0)
                  (selectbox PyStr u "Select X-axis Column" (columns filtered_data)) ;;
    y_column <- within (Column 1)
                  (selectbox PyStr u "Select Y-axis Column" (columns filtered_data)) ;;
    match x_column, y_column with
    | Some xc, Some yc =>
        if truthy (PyStr xc) && truthy (PyStr yc)
        then call (DisplayBivariate filtered_data xc yc)
               (display_bivariate_analysis lib filtered_data xc yc)
        else ret tt
    | _, _ => ret tt
    end
  else if String.eqb analysis_option "Multivariate Analysis" then
    selected_columns <- multiselect u "Select Columns for Multivariate Analysis"
                          (columns filtered_data) ;;
    match selected_columns with
    | [] => ret tt
    | _ :: _ =>
        call (DisplayMultivariate filtered_data selected_columns)
          (display_multivariate_analysis lib filtered_data selected_columns)
    end
  else if String.eqb analysis_option "Correlation Analysis" then
    call (DisplayCorrelation filtered_data)
      (display_correlation_analysis lib filtered_data)
  else ret tt.

Definition handle_data_analysis_tab (filtered_data : DataFrame) : M unit :=
  emit (Header "Data Analysis") ;;
  emit (Write [PyStr "This tab will host various analysis tools, such as univariate, bivariate, and multivariate analysis, along with other advanced data analysis features."]) ;;
  selected <- selectbox PyStr u "Select an Analysis Type" analysis_options ;;
  match selected with
  | None => raise (KeyError "None")
  | Some analysis_option =>
      description <- eval (subscript descriptions analysis_option) ;;
      emit (Subheader analysis_option) ;;
      emit (Write [PyStr ("Description: " ++ description)]) ;;
      emit (Markdown "---") ;;
      analysis_dispatch filtered_data analysis_option
  end.

(** The loop that builds the filter dictionary (lines 164-168). *)
Fixpoint sidebar_filters (selected_data : DataFrame) (cols : list string)
    (filters : dict pyval) : M (dict pyval) :=
  match cols with
  | [] => ret filters
  | column :: cols' =>
      unique_vals <- eval (column_unique selected_data column) ;;
      if Z.of_nat (List.length unique_vals) <? 100 then
        chosen <- within Sidebar
                    (selectbox (fun v => v) u ("Filter by " ++ column)
                       (PyNone :: unique_vals)) ;;
        sidebar_filters selected_data cols'
          (dict_set filters column
             (match chosen with Some v => v | None => PyNone end))
      else sidebar_filters selected_data cols' filters
  end.

Definition main (db : list Dataset) : M unit :=
  emit (Title "AnalytiQ") ;;
  emit GetDb ;;
  emit QueryAll ;;
  let datasets := db in
  match datasets with
  | [] => emit (Write [PyStr "No datasets available. Please upload a dataset first."])
  | _ :: _ =>
      let dataset_names := map name datasets in
      within Sidebar (emit (Header "Select Dataset and Filters")) ;;
      selection <- within Sidebar (selectbox PyStr u "Select Dataset" dataset_names) ;;
      data_limit <- within Sidebar
                      (number_input u "Number of Rows to Fetch" 1 1000 1000) ;;
      match selection with
      | None => ret tt
      | Some dataset_name =>
          if truthy (PyStr dataset_name) then
            emit (QueryFirst dataset_name) ;;
            data_path <- match find (fun d => String.eqb (name d) dataset_name) db with
                         | Some selected_dataset => ret (filepath selected_dataset)
                         | None => raise (AttributeError "'NoneType' object has no attribute 'filepath'")
                         end ;;
            selected_data <- within (Spinner ("Loading " ++ dataset_name ++ "..."))
                               (call (LoadData data_path (Some data_limit))
                                  (data_utils.load_data (read_file lib) data_path
                                     (Some data_limit))) ;;
            within Sidebar (emit (Subheader "Filter Data")) ;;
            filters <- sidebar_filters selected_data (columns selected_data) [] ;;
            filtered_data <- call (ApplyFilters selected_data filters)
                               (data_utils.apply_filters selected_data filters) ;;
            emit (Tabs ["Summary"; "Analysis"; "Other Tab 2"]) ;;
            within (Tab 0) (handle_data_summary_tab filtered_data) ;;
            within (Tab 1) (handle_data_analysis_tab filtered_data) ;;
            within (Tab 2)
              (emit (Header "Other Analysis 2") ;;
               emit (Write [PyStr "Content for the third tab goes here."])) ;;
            within Sidebar (emit (Header "View Data")) ;;
            emit (Write [PyStr ("Displaying first " ++ str data_limit ++ " rows of "
                                ++ dataset_name)]) ;;
            emit (ShowDataframe filtered_data)
          else ret tt
      end
  end.

End Page.

(** ** Reading a trace *)

(** The table a statistic, an analysis or a chart is computed from. *)
Definition computed_from (ev : event) : option DataFrame :=
  match base ev with
  | Call (GenerateSummary df) _ => Some df
  | Call (DetailedStatistics df) _ => Some df
  | Call (ColumnSummary df _) _ => Some df
  | Call (PxHistogram a) _ => Some (data_frame a)
  | Call (DisplayUnivariate df _) _ => Some df
  | Call (DisplayBivariate df _ _) _ => Some df
  | Call (DisplayMultivariate df _) _ => Some df
  | Call (DisplayCorrelation df) _ => Some df
  | PlotlyChart (Histogram a) => Some (data_frame a)
  | _ => None
  end.

(** The histograms asked of the charting library, and the charts drawn. *)
Definition histogram_calls (t : list event) : list histogram_args :=
  flat_map (fun ev => match base ev with
                      | Call (PxHistogram a) _ => [a]
                      | _ => []
                      end) t.

Definition charts (t : list event) : list Figure :=
  flat_map (fun ev => match base ev with
                      | PlotlyChart fig => [fig]
                      | _ => []
                      end) t.

(** The row limits [load_data] was called with. *)
Definition load_calls (t : list event) : list (string * option Z) :=
  flat_map (fun ev => match base ev with
                      | Call (LoadData path limit) _ => [(path, limit)]
                      | _ => []
                      end) t.

Definition is_selector (ev : event) : bool :=
  match base ev with
  | Selectbox _ _ | Multiselect _ _ => true
  | _ => false
  end.

Definition is_call (ev : event) : bool :=
  match base ev with
  | Call _ _ => true
  | _ => false
  end.

(** The filter selectors of the sidebar: label and options. *)
Definition sidebar_selectors (t : list event) : list (string * list pyval) :=
  flat_map (fun ev => match ev with
                      | Within Sidebar (Selectbox label options) => [(label, options)]
                      | _ => []
                      end) t.

(** A computation lets exceptions through when a call that raised is the
    last thing it did and its own outcome is that very exception. *)
Definition propagates {A} (m : M A) : Prop :=
  forall w t w' r, m w = (t, w', r) ->
  forall before ev after c e,
    t = (before ++ ev :: after)%list ->
    base ev = Call c (Some e) ->
    after = [] /\ r = Raise e.

(** ** A small installation, for concrete runs *)

Module Scenario.

Definition sales : DataFrame :=
  {| columns := ["region"; "units"];
     rows := [[PyStr "north"; PyInt 3];
              [PyStr "south"; PyInt 5];
              [PyStr "north"; PyInt 7]] |}.

(** A table whose column [id] has 120 distinct values. *)
Definition ledger : DataFrame :=
  {| columns := ["id"; "kind"];
     rows := map (fun i => [PyInt (Z.of_nat i); PyStr "sale"]) (seq 0 120) |}.

Definition summary_of (df : DataFrame) : dict pyval :=
  [("Number of Rows", PyInt (Z.of_nat (List.length (rows df))));
   ("Number of Columns", PyInt (Z.of_nat (List.length (columns df))));
   ("Missing Values", PyInt 0);
   ("Duplicate Rows", PyInt 0);
   ("Memory Usage (MB)", PyInt 0)].

Definition column_summary_of (df : DataFrame) (column : string) : dict pyval :=
  [("Data Type", PyStr "object");
   ("Unique Values", PyInt 2);
   ("Missing Values", PyInt 0);
   ("Mean", PyNone);
   ("Median", PyNone);
   ("Mode", PyStr "north");
   ("Standard Deviation", PyNone);
   ("Min", PyNone);
   ("Max", PyNone)].

Definition all_ints (s : list pyval) : bool :=
  forallb (fun v => match v with PyInt _ => true | _ => false end) s.

Definition disk (path : string) : result DataFrame :=
  if String.eqb path "sales.csv" then Ok sales
  else if String.eqb path "ledger.csv" then Ok ledger
  else Raise (OtherError "FileNotFoundError" path).

Definition sound : library :=
  {| read_file := disk;
     generate_summary := fun df => Ok (summary_of df);
     detailed_statistics := fun df => Ok df;
     column_summary := fun df column => Ok (column_summary_of df column);
     is_numeric_dtype := all_ints;
     px_histogram_error := fun _ => None;
     display_univariate_analysis := fun _ _ => Ok tt;
     display_bivariate_analysis := fun _ _ _ => Ok tt;
     display_multivariate_analysis := fun _ _ => Ok tt;
     display_correlation_analysis := fun _ => Ok tt |}.

(** The same installation with a statistics function that fails. *)
Definition broken : library :=
  {| read_file := disk;
     generate_summary := fun _ => Raise (OtherError "ValueError" "no rows");
     detailed_statistics := fun df => Ok df;
     column_summary := fun df column => Ok (column_summary_of df column);
     is_numeric_dtype := all_ints;
     px_histogram_error := fun _ => None;
     display_univariate_analysis := fun _ _ => Ok tt;
     display_bivariate_analysis := fun _ _ _ => Ok tt;
     display_multivariate_analysis := fun _ _ => Ok tt;
     display_correlation_analysis := fun _ => Ok tt |}.

(** Somebody who has touched nothing yet. *)
Definition newcomer : user :=
  {| pick := fun _ => O; entered := fun _ => None; picks := fun _ => [] |}.

(** Somebody who filters on the region and looks at cross tabulation. *)
Definition analyst : user :=
  {| pick := fun label =>
       if String.eqb label "Filter by region" then 1%nat
       else if String.eqb label "Select an Analysis Type" then 4%nat
       else O;
     entered := fun label =>
       if String.eqb label "Number of Rows to Fetch" then Some 2 else None;
     picks := fun _ => [] |}.

Definition catalogue : list Dataset :=
  [{| name := "sales"; filepath := "sales.csv" |};
   {| name := "ledger"; filepath := "ledger.csv" |}].

(** A catalogue whose only record has the empty string for a name. *)
Definition nameless : list Dataset :=
  [{| name := ""; filepath := "sales.csv" |}].

Definition with_plotly : world := {| modules := ["plotly.express"] |}.
Definition without_plotly : world := {| modules := [] |}.

(** A [pip] that installs what it is asked for. *)
Definition pip (argv : list string) (w : world) : world * Z :=
  match argv with
  | [_; "-m"; "pip"; "install"; "plotly"] =>
      ({| modules := "plotly.express" :: modules w |}, 0)
  | _ => (w, 1)
  end.

End Scenario.

(** [returns m a]: some run of [m] ends without an exception, in [a]. *)
Definition returns {A} (m : M A) (a : A) : Prop :=
  exists w t w', m w = (t, w', Ok a).

(** [always Q m]: every event of every run of [m] satisfies [Q]. *)
Definition always (Q : event -> Prop) {A} (m : M A) : Prop :=
  forall w t w' r, m w = (t, w', r) -> Forall Q t.

(** [quiet ev]: the event is not a call that raised. *)
Definition quiet (ev : event) : Prop :=
  forall c e, base ev <> Call c (Some e).

(** ** Vocabulary of the properties *)

(** What the analysis tab draws before it looks at the option. *)
Definition analysis_heading (analysis_option description : string) : list event :=
  [Header "Data Analysis";
   Write [PyStr "This tab will host various analysis tools, such as univariate, bivariate, and multivariate analysis, along with other advanced data analysis features."];
   Selectbox "Select an Analysis Type" (map PyStr analysis_options);
   Subheader analysis_option;
   Write [PyStr ("Description: " ++ description)];
   Markdown "---"].

Definition selector_or_call (ev : event) : bool := is_selector ev || is_call ev.

(** The keys [display_column_summary] reads from a column summary. *)
Definition column_summary_keys : list string :=
  ["Data Type"; "Unique Values"; "Missing Values"; "Mean"; "Median"; "Mode";
   "Standard Deviation"; "Min"; "Max"].

(** The name the dataset selector returns and the row limit the number
    field returns. *)
Definition selected_name (u : user) (db : list Dataset) : option string :=
  choose (pick u "Select Dataset") (map name db).

Definition row_limit (u : user) : Z :=
  match entered u "Number of Rows to Fetch" with
  | None => 1000
  | Some n => if n <? 1 then 1000 else n
  end.

(** What [main] draws before it looks at the selected name. *)
Definition selection_widgets (db : list Dataset) : list event :=
  [Title "AnalytiQ"; GetDb; QueryAll;
   Within Sidebar (Header "Select Dataset and Filters");
   Within Sidebar (Selectbox "Select Dataset" (map PyStr (map name db)));
   Within Sidebar (NumberInput "Number of Rows to Fetch" 1 1000 1000)].

(** An event that shows something computed from the table [fd]: a call on
    it, a tile of its summary, an entry of a summary of one of its columns,
    a chart of it, or the table or its statistics displayed.  No event of
    this kind loads or filters a table. *)
Definition from_table (lib : library) (fd : DataFrame) (ev : event) : Prop :=
  (forall t, computed_from ev = Some t -> t = fd) /\
  match base ev with
  | Metric label v =>
      exists summary, generate_summary lib fd = Ok summary /\
                      dict_get summary label = Some v
  | Write [PyStr label; v] =>
      exists column summary key,
        column_summary lib fd column = Ok summary /\
        label = key ++ ":" /\ dict_get summary key = Some v
  | ShowDataframe df => df = fd \/ detailed_statistics lib fd = Ok df
  | Call (LoadData _ _) _ => False
  | Call (ApplyFilters _ _) _ => False
  | _ => True
  end.

(** The pipeline of [main]: the first record with the selected name is
    looked up, the file at its path is loaded with the row limit, the
    filters of the sidebar are applied to the loaded table, and whatever is
    shown afterwards comes from the filtered table.  A load that raises ends
    the run. *)
Definition follows_pipeline (u : user) (lib : library) (db : list Dataset)
    (w : world) : Prop :=
  exists dataset_name record after,
    selected_name u db = Some dataset_name /\
    find (fun d => String.eqb (name d) dataset_name) db = Some record /\
    let loaded :=
      data_utils.load_data (read_file lib) (filepath record) (Some (row_limit u)) in
    fst (fst (main u lib db w)) =
      (selection_widgets db ++
       QueryFirst dataset_name ::
       Within (Spinner ("Loading " ++ dataset_name ++ "..."))
         (Call (LoadData (filepath record) (Some (row_limit u))) (raised loaded)) ::
       after)%list /\
    match loaded with
    | inl e => after = [] /\ snd (main u lib db w) = Raise e
    | inr selected_data =>
        exists sidebar filters shown,
          sidebar_filters u selected_data (columns selected_data) [] w
            = (sidebar, w, Ok filters) /\
          sidebar_dict selected_data filters /\
          data_utils.apply_filters selected_data filters
            = Ok (filtered_view selected_data filters) /\
          after = (Within Sidebar (Subheader "Filter Data") :: sidebar ++
                   Call (ApplyFilters selected_data filters) None :: shown)%list /\
          Forall (from_table lib (filtered_view selected_data filters)) shown
    end.

(** The sidebar's filter for a column: whether one is offered, with which
    options, and as which widget. *)
Definition filter_offered (df : DataFrame) (column : string) : bool :=
  match getitem df column with
  | inr s => Z.of_nat (List.length (unique s)) <? 100
  | inl _ => false
  end.

Definition filter_options (df : DataFrame) (column : string) : list pyval :=
  match getitem df column with
  | inr s => PyNone :: unique s
  | inl _ => []
  end.

Definition filter_selector (df : DataFrame) (column : string) : event :=
  Within Sidebar (Selectbox ("Filter by " ++ column) (filter_options df column)).

(** The columns the loop gets through: those before the first one whose
    label the index holds more than once. *)
Fixpoint before_repeated (df : DataFrame) (cols : list string) : list string :=
  match cols with
  | [] => []
  | column :: cols' =>
      if repeated df column then [] else column :: before_repeated df cols'
  end.

(** What the loop raises at a repeated label. *)
Definition no_unique : exn :=
  AttributeError "'DataFrame' object has no attribute 'unique'".

(** ** Vocabulary of the further properties *)

(** The first of the keys that a dictionary does not have. *)
Fixpoint first_missing {V} (d : dict V) (ks : list string) : option string :=
  match ks with
  | [] => None
  | k :: ks' =>
      match dict_get d k with
      | Some _ => first_missing d ks'
      | None => Some k
      end
  end.

(** The summary tiles: which column of the three each key goes to. *)
Definition tile_layout : list (nat * string) :=
  [(0%nat, "Number of Rows"); (0%nat, "Number of Columns");
   (1%nat, "Missing Values"); (1%nat, "Duplicate Rows");
   (2%nat, "Memory Usage (MB)")].

(** The tiles of the leading keys that the summary has. *)
Fixpoint tiles_drawn (summary : dict pyval) (layout : list (nat * string)) : list event :=
  match layout with
  | [] => []
  | (c, k) :: layout' =>
      match dict_get summary k with
      | Some v => Within (Column c) (Metric k v) :: tiles_drawn summary layout'
      | None => []
      end
  end.

(** The calls into the other modules made in a run, in order. *)
Definition calls (t : list event) : list libcall :=
  flat_map (fun ev => match base ev with
                      | Call c _ => [c]
                      | _ => []
                      end) t.

(** [call_ok P ev]: if the event is a call, the call satisfies [P]. *)
Definition call_ok (P : libcall -> Prop) (ev : event) : Prop :=
  match base ev with
  | Call c _ => P c
  | _ => True
  end.

(** A call the summary tab may make on the table [fd]: the summary and the
    statistics of that table, and the summary and the histogram of one of
    its columns, the column having a name other than the empty string. *)
Definition summary_request_ok (fd : DataFrame) (c : libcall) : Prop :=
  match c with
  | GenerateSummary df => df = fd
  | DetailedStatistics df => df = fd
  | ColumnSummary df column => df = fd /\ In column (columns fd) /\ column <> ""
  | PxHistogram a => data_frame a = fd /\ In (x a) (columns fd) /\ x a <> ""
  | _ => False
  end.

(** A call the analysis tab may make on the table [fd]: one of the four
    analyses, on that table and on columns of it. *)
Definition analysis_request_ok (fd : DataFrame) (c : libcall) : Prop :=
  match c with
  | DisplayUnivariate df column => df = fd /\ In column (columns fd) /\ column <> ""
  | DisplayBivariate df xc yc =>
      df = fd /\ In xc (columns fd) /\ In yc (columns fd) /\ xc <> "" /\ yc <> ""
  | DisplayMultivariate df selected =>
      df = fd /\ selected <> [] /\ incl selected (columns fd)
  | DisplayCorrelation df => df = fd
  | _ => False
  end.

(** The option picked in the sidebar selector of a column. *)
Definition filter_choice (u : user) (df : DataFrame) (column : string) : pyval :=
  nth (pick u ("Filter by " ++ column)) (filter_options df column) PyNone.

(** The entries of the leading keys that a column summary has. *)
Fixpoint entries_drawn (summary : dict pyval) (ks : list string) : list event :=
  match ks with
  | [] => []
  | k :: ks' =>
      match dict_get summary k with
      | Some v => Within (Column 0) (Write [PyStr (k ++ ":"); v]) :: entries_drawn summary ks'
      | None => []
      end
  end.

(** The histogram [display_column_summary] asks for on a series. *)
Definition requested_histogram (lib : library) (df : DataFrame) (column : string)
    (series : list pyval) : histogram_args :=
  if is_numeric_dtype lib series
  then numeric_histogram df column
  else categorical_histogram df column.

(** An exception of the page's own making: [KeyError] for a key that a
    summary returned by [generate_summary] or [column_summary] lacks. *)
Definition missing_summary_key (lib : library) (e : exn) : Prop :=
  exists fd k,
    e = KeyError k /\
    ((exists summary,
        generate_summary lib fd = Ok summary /\
        In k (map snd tile_layout) /\ dict_get summary k = None) \/
     (exists column summary,
        column_summary lib fd column = Ok summary /\
        In k column_summary_keys /\ dict_get summary k = None)).

(** A computation that raises only what a call into another module raised,
    that call being the last thing it did, or a [KeyError] for a missing
    summary key. *)
Definition fails_only_by_call (lib : library) {A} (m : M A) : Prop :=
  forall w t w' e, m w = (t, w', Raise e) ->
    (exists before ev c, t = (before ++ [ev])%list /\ base ev = Call c (Some e)) \/
    missing_summary_key lib e.

(** ** An installation whose summaries are incomplete *)

Module Corner.

(** A table that has the column name [kind] twice. *)
Definition twice : DataFrame :=
  {| columns := ["region"; "kind"; "kind"];
     rows := [[PyStr "north"; PyStr "a"; PyStr "b"]] |}.

Definition shelf (path : string) : result DataFrame :=
  if String.eqb path "twice.csv" then Ok twice else Scenario.disk path.

(** The sound installation with that table among its files. *)
Definition stocked : library :=
  {| read_file := shelf;
     generate_summary := fun df => Ok (Scenario.summary_of df);
     detailed_statistics := fun df => Ok df;
     column_summary := fun df column => Ok (Scenario.column_summary_of df column);
     is_numeric_dtype := Scenario.all_ints;
     px_histogram_error := fun _ => None;
     display_univariate_analysis := fun _ _ => Ok tt;
     display_bivariate_analysis := fun _ _ _ => Ok tt;
     display_multivariate_analysis := fun _ _ => Ok tt;
     display_correlation_analysis := fun _ => Ok tt |}.

Definition twice_listed : list Dataset :=
  [{| name := "twice"; filepath := "twice.csv" |}].

Definition terse : library :=
  {| read_file := Scenario.disk;
     generate_summary := fun _ => Ok [("Number of Rows", PyInt 0)];
     detailed_statistics := fun df => Ok df;
     column_summary := fun _ _ => Ok [("Data Type", PyStr "object")];
     is_numeric_dtype := Scenario.all_ints;
     px_histogram_error := fun _ => None;
     display_univariate_analysis := fun _ _ => Ok tt;
     display_bivariate_analysis := fun _ _ _ => Ok tt;
     display_multivariate_analysis := fun _ _ => Ok tt;
     display_correlation_analysis := fun _ => Ok tt |}.

End Corner.

(** * Properties *)

(** ** Values and tables *)

Lemma pyval_eqb_eq (a b : pyval) : pyval_eqb a b = true <-> a = b.
Proof.
  destruct a as [|m|s], b as [|n|t]; simpl; split; intro H;
    try reflexivity; try discriminate.
  - apply Z.eqb_eq in H. now subst.
  - injection H as ->. apply Z.eqb_refl.
  - apply String.eqb_eq in H. now subst.
  - injection H as ->. apply String.eqb_refl.
Qed.

Lemma get_loc_In (c : string) (cols : list string) :
  In c cols -> exists i, get_loc c cols = Some i.
Proof.
  induction cols as [|k cols IH]; simpl; [contradiction|].
  intros [-> | Hin].
  - rewrite String.eqb_refl. now exists O.
  - destruct (String.eqb k c); [now exists O|].
    destruct (IH Hin) as [i ->]. now exists (S i).
Qed.

Lemma get_loc_None (c : string) (cols : list string) :
  get_loc c cols = None -> ~ In c cols.
Proof.
  intros Hnone Hin. destruct (get_loc_In _ _ Hin) as [i Hi]. congruence.
Qed.

Lemma get_loc_Some (c : string) (cols : list string) (i : nat) :
  get_loc c cols = Some i -> In c cols.
Proof.
  revert i. induction cols as [|k cols IH]; simpl; intros i H; [discriminate|].
  destruct (String.eqb k c) eqn:E.
  - apply String.eqb_eq in E. now left.
  - destruct (get_loc c cols) as [j|]; [|discriminate]. right. now apply (IH j).
Qed.

Lemma select_rows_map (keep : list pyval -> bool) (rs : list (list pyval)) :
  select_rows rs (map keep rs) = List.filter keep rs.
Proof.
  induction rs as [|r rs IH]; simpl; [reflexivity|].
  destruct (keep r); now rewrite IH.
Qed.

Lemma filter_twice {A} (f g : A -> bool) (l : list A) :
  List.filter g (List.filter f l) = List.filter (fun a => f a && g a) l.
Proof.
  induction l as [|a l IH]; simpl; [reflexivity|].
  destruct (f a); simpl; [destruct (g a)|]; now rewrite IH.
Qed.

Lemma filter_all {A} (l : list A) : List.filter (fun _ => true) l = l.
Proof. induction l as [|a l IH]; simpl; [reflexivity|now rewrite IH]. Qed.

Lemma select_column (df : DataFrame) (i : nat) (v : pyval) :
  select df (map (fun c => pyval_eqb c v) (map (cell i) (rows df)))
  = {| columns := columns df;
       rows := List.filter (fun r => pyval_eqb (cell i r) v) (rows df) |}.
Proof.
  unfold select. f_equal. rewrite map_map.
  apply (select_rows_map (fun r => pyval_eqb (cell i r) v)).
Qed.

(** ** The filter *)

(** What [apply_filters] does on any table and dictionary: it returns the
    filtered view, or raises [KeyError] for a key that is not a column. *)
Lemma apply_filters_spec (filters : dict pyval) :
  forall df,
    match data_utils.apply_filters df filters with
    | inr view => view = filtered_view df filters
    | inl e => exists c, e = KeyError c /\ In c (keys filters) /\ ~ In c (columns df)
    end.
Proof.
  induction filters as [|[c v] filters IH]; intros df.
  - simpl. unfold filtered_view. simpl. rewrite filter_all. now destruct df.
  - assert (Hnone : v = PyNone ->
      match data_utils.apply_filters df filters with
      | inr view => view = filtered_view df ((c, v) :: filters)
      | inl e => exists c', e = KeyError c' /\ In c' (keys ((c, v) :: filters))
                            /\ ~ In c' (columns df)
      end).
    { intros ->. specialize (IH df).
      destruct (data_utils.apply_filters df filters) as [e|view].
      - destruct IH as (c' & -> & Hk & Hc). exists c'. simpl. auto.
      - exact IH. }
    assert (Hsome : v <> PyNone ->
      match
        match getitem df c with
        | inl e => Raise e
        | inr s => data_utils.apply_filters
                     (select df (map (fun x => pyval_eqb x v) s)) filters
        end
      with
      | inr view => view = filtered_view df ((c, v) :: filters)
      | inl e => exists c', e = KeyError c' /\ In c' (keys ((c, v) :: filters))
                            /\ ~ In c' (columns df)
      end).
    { intros Hv. unfold getitem.
      destruct (get_loc c (columns df)) as [i|] eqn:Hloc.
      - rewrite select_column.
        match goal with |- context [data_utils.apply_filters ?d filters] =>
          specialize (IH d); destruct (data_utils.apply_filters d filters) as [e|view]
        end.
        + destruct IH as (c' & -> & Hk & Hc). exists c'. simpl in *. auto.
        + subst view. unfold filtered_view. simpl. f_equal.
          rewrite filter_twice. apply filter_ext. intros r.
          unfold passes. simpl. rewrite Hloc.
          destruct v; [congruence| |]; reflexivity.
      - exists c. simpl. split; [reflexivity|]. split; [now left|].
        now apply get_loc_None. }
    simpl. destruct v; [apply Hnone; reflexivity | apply Hsome; discriminate ..].
Qed.

Lemma passes_iff (df : DataFrame) (filters : dict pyval) (r : list pyval) :
  passes (columns df) filters r = true <->
  (forall c v, In (c, v) filters -> v <> PyNone -> value_at df c r = Some v).
Proof.
  unfold passes. rewrite forallb_forall. unfold value_at. split.
  - intros H c v Hin Hv. specialize (H _ Hin). simpl in H.
    destruct (get_loc c (columns df)) as [i|]; simpl.
    + f_equal. apply pyval_eqb_eq. destruct v; [congruence|exact H|exact H].
    + destruct v; [congruence|discriminate|discriminate].
  - intros H [c v] Hin. simpl.
    destruct v as [|z|s]; [reflexivity| |].
    + specialize (H _ _ Hin ltac:(discriminate)).
      destruct (get_loc c (columns df)); simpl in H; [|discriminate].
      injection H as ->. now apply pyval_eqb_eq.
    + specialize (H _ _ Hin ltac:(discriminate)).
      destruct (get_loc c (columns df)); simpl in H; [|discriminate].
      injection H as ->. now apply pyval_eqb_eq.
Qed.

Lemma apply_filters_sidebar (df : DataFrame) (filters : dict pyval) :
  sidebar_dict df filters ->
  data_utils.apply_filters df filters = Ok (filtered_view df filters).
Proof.
  intros Hside. pose proof (apply_filters_spec filters df) as Hspec.
  destruct (data_utils.apply_filters df filters) as [e|view]; [|now subst].
  destruct Hspec as (c & _ & Hk & Hc). exfalso. apply Hc.
  unfold keys in Hk. apply in_map_iff in Hk. destruct Hk as ([c' v] & <- & Hin).
  unfold sidebar_dict in Hside. rewrite Forall_forall in Hside.
  now destruct (Hside _ Hin) as [Hcol _].
Qed.

(** C1. For a loaded table and a filter dictionary as the sidebar builds it
    (every key a column, every value [None] or one of the column's unique
    values), [apply_filters] returns a table with the same columns whose rows
    are exactly the rows of the table, in their order, that have in each
    column with a filter value other than [None] a cell equal to that value;
    a column whose value is [None] constrains nothing. *)
Theorem apply_filters_exact (df : DataFrame) (filters : dict pyval) :
  sidebar_dict df filters ->
  exists view,
    data_utils.apply_filters df filters = Ok view /\
    columns view = columns df /\
    rows view = List.filter (passes (columns df) filters) (rows df) /\
    (forall r, In r (rows view) <->
               In r (rows df) /\
               forall c v, In (c, v) filters -> v <> PyNone -> value_at df c r = Some v).
Proof.
  intros Hside. exists (filtered_view df filters).
  split; [now apply apply_filters_sidebar|]. simpl. repeat split; try reflexivity.
  + now apply filter_In in H.
  + apply filter_In in H. destruct H as [_ H]. now apply passes_iff.
  + intros [Hin Hall]. apply filter_In. split; [exact Hin|]. now apply passes_iff.
Qed.

Lemma apply_filters_exact_run :
  sidebar_dict Scenario.sales [("region", PyStr "north"); ("units", PyNone)] /\
  exists view,
    data_utils.apply_filters Scenario.sales [("region", PyStr "north"); ("units", PyNone)]
      = Ok view /\
    rows view = [[PyStr "north"; PyInt 3]; [PyStr "north"; PyInt 7]].
Proof.
  assert (Hside : sidebar_dict Scenario.sales [("region", PyStr "north"); ("units", PyNone)]).
  { apply Forall_cons; [|apply Forall_cons; [|apply Forall_nil]].
    - split; [simpl; auto|]. right.
      exists [PyStr "north"; PyStr "south"; PyStr "north"].
      split; [reflexivity|simpl; auto].
    - split; [simpl; auto|now left]. }
  split; [exact Hside|].
  destruct (apply_filters_exact _ _ Hside) as (view & Hrun & _ & Hrows & _).
  exists view. split; [exact Hrun|]. rewrite Hrows. reflexivity.
Defined.

(** C2. For every table and every filter dictionary, the table
    [apply_filters] returns has the columns of the loaded table and its rows
    are rows of the loaded table, kept in their order; the only other outcome
    is a [KeyError] for a key of the dictionary that is not a column. *)
Theorem filtered_view_subset (df : DataFrame) (filters : dict pyval) :
  match data_utils.apply_filters df filters with
  | inr view =>
      columns view = columns df /\
      (forall r, In r (rows view) -> In r (rows df)) /\
      (exists keep, rows view = List.filter keep (rows df))
  | inl e => exists c, e = KeyError c /\ In c (keys filters) /\ ~ In c (columns df)
  end.
Proof.
  pose proof (apply_filters_spec filters df) as Hspec.
  destruct (data_utils.apply_filters df filters) as [e|view]; [exact Hspec|].
  subst view. simpl. split; [reflexivity|]. split.
  - intros r Hin. now apply filter_In in Hin.
  - now exists (passes (columns df) filters).
Qed.

(** ** Traces of composed computations *)

Lemma bind_run {A B} (m : M A) (k : A -> M B) w t w' r :
  bind m k w = (t, w', r) ->
  (exists e, m w = (t, w', Raise e) /\ r = Raise e) \/
  (exists a t1 w1 t2, m w = (t1, w1, Ok a) /\ k a w1 = (t2, w', r) /\ t = (t1 ++ t2)%list).
Proof.
  unfold bind. destruct (m w) as [[t1 w1] [e|a]].
  - intros H. injection H as <- <- <-. left. now exists e.
  - destruct (k a w1) as [[t2 w2] r2] eqn:Hk. intros H. injection H as <- <- <-.
    right. now exists a, t1, w1, t2.
Qed.

Lemma within_run {A} (c : container) (m : M A) w t w' r :
  within c m w = (t, w', r) ->
  exists t0, m w = (t0, w', r) /\ t = map (Within c) t0.
Proof.
  unfold within. destruct (m w) as [[t0 w0] r0]. intros H. injection H as <- <- <-.
  now exists t0.
Qed.

Section Always.

Variable Q : event -> Prop.
Hypothesis Q_within : forall c ev, Q ev -> Q (Within c ev).

Lemma always_ret {A} (a : A) : always Q (ret a).
Proof. intros w t w' r H. injection H as <- _ _. constructor. Qed.

Lemma always_raise {A} (e : exn) : always Q (@raise A e).
Proof. intros w t w' r H. injection H as <- _ _. constructor. Qed.

Lemma always_eval {A} (x : result A) : always Q (eval x).
Proof. intros w t w' r H. injection H as <- _ _. constructor. Qed.

Lemma always_emit (ev : event) : Q ev -> always Q (emit ev).
Proof. intros HQ w t w' r H. injection H as <- _ _. now repeat constructor. Qed.

Lemma always_call {A} (c : libcall) (x : result A) :
  Q (Call c (raised x)) -> always Q (call c x).
Proof. intros HQ w t w' r H. injection H as <- _ _. now repeat constructor. Qed.

Lemma always_selectbox {A} (show : A -> pyval) u label (options : list A) :
  Q (Selectbox label (map show options)) -> always Q (selectbox show u label options).
Proof. intros HQ w t w' r H. injection H as <- _ _. now repeat constructor. Qed.

Lemma always_number_input u label lo v step :
  Q (NumberInput label lo v step) -> always Q (number_input u label lo v step).
Proof. intros HQ w t w' r H. injection H as <- _ _. now repeat constructor. Qed.

Lemma always_multiselect u label options :
  Q (Multiselect label (map PyStr options)) -> always Q (multiselect u label options).
Proof. intros HQ w t w' r H. injection H as <- _ _. now repeat constructor. Qed.

Lemma always_bind {A B} (m : M A) (k : A -> M B) :
  always Q m -> (forall a, returns m a -> always Q (k a)) -> always Q (bind m k).
Proof.
  intros Hm Hk w t w' r H. apply bind_run in H.
  destruct H as [(e & H & _) | (a & t1 & w1 & t2 & H1 & H2 & ->)].
  - exact (Hm _ _ _ _ H).
  - apply Forall_app. split; [exact (Hm _ _ _ _ H1)|].
    apply (Hk a) with (w := w1) (w' := w') (r := r); [|exact H2].
    now exists w, t1, w1.
Qed.

Lemma always_within {A} (c : container) (m : M A) :
  always Q m -> always Q (within c m).
Proof.
  intros Hm w t w' r H. apply within_run in H. destruct H as (t0 & H & ->).
  specialize (Hm _ _ _ _ H). apply Forall_map.
  apply (Forall_impl _ (fun ev HQ => Q_within c ev HQ) Hm).
Qed.

End Always.

Lemma returns_call {A} (c : libcall) (x : result A) (a : A) :
  returns (call c x) a -> x = Ok a.
Proof. intros (w & t & w' & H). now injection H as _ _ ->. Qed.

Lemma returns_eval {A} (x : result A) (a : A) : returns (eval x) a -> x = Ok a.
Proof. intros (w & t & w' & H). now injection H as _ _ ->. Qed.

Lemma returns_within {A} (c : container) (m : M A) (a : A) :
  returns (within c m) a -> returns m a.
Proof.
  intros (w & t & w' & H). apply within_run in H. destruct H as (t0 & H & _).
  now exists w, t0, w'.
Qed.

(** ** Exceptions pass through *)

Lemma split_app {A} (l1 l2 before after : list A) (a : A) :
  (l1 ++ l2 = before ++ a :: after)%list ->
  (exists mid, l1 = before ++ a :: mid /\ after = mid ++ l2)%list \/
  (exists pre, before = l1 ++ pre /\ l2 = pre ++ a :: after)%list.
Proof.
  revert before. induction l1 as [|b l1 IH]; intros before H; simpl in H.
  - right. now exists before.
  - destruct before as [|b' before]; simpl in H.
    + injection H as -> H. left. exists l1. now subst.
    + injection H as -> H. destruct (IH _ H) as [(mid & -> & ->) | (pre & -> & ->)].
      * left. now exists mid.
      * right. now exists pre.
Qed.

Lemma propagates_silent {A} (m : M A) :
  (forall w, exists w' r, m w = ([], w', r)) -> propagates m.
Proof.
  intros Hm w t w' r H before ev after c e Ht _.
  destruct (Hm w) as (w1 & r1 & H1). rewrite H1 in H. injection H as <- _ _.
  now destruct before.
Qed.

Lemma propagates_one {A} (m : M A) :
  (forall w, exists ev w' r, m w = ([ev], w', r) /\ quiet ev) -> propagates m.
Proof.
  intros Hm w t w' r H before ev after c e Ht Hev.
  destruct (Hm w) as (ev1 & w1 & r1 & H1 & Hq). rewrite H1 in H. injection H as <- _ _.
  destruct before as [|b [|b' before]]; try discriminate.
  injection Ht as -> _. now destruct (Hq c e).
Qed.

Lemma propagates_ret {A} (a : A) : propagates (ret a).
Proof. apply propagates_silent. intros w. now exists w, (Ok a). Qed.

Lemma propagates_raise {A} (e : exn) : propagates (@raise A e).
Proof. apply propagates_silent. intros w. now exists w, (Raise e). Qed.

Lemma propagates_eval {A} (x : result A) : propagates (eval x).
Proof. apply propagates_silent. intros w. now exists w, x. Qed.

Lemma propagates_emit (ev : event) : quiet ev -> propagates (emit ev).
Proof. intros Hq. apply propagates_one. intros w. now exists ev, w, (Ok tt). Qed.

Lemma propagates_selectbox {A} (show : A -> pyval) u label (options : list A) :
  propagates (selectbox show u label options).
Proof.
  apply propagates_one. intros w. eexists _, w, _. split; [reflexivity|].
  intros c e. discriminate.
Qed.

Lemma propagates_number_input u label lo v step :
  propagates (number_input u label lo v step).
Proof.
  apply propagates_one. intros w. eexists _, w, _. split; [reflexivity|].
  intros c e. discriminate.
Qed.

Lemma propagates_multiselect u label options :
  propagates (multiselect u label options).
Proof.
  apply propagates_one. intros w. eexists _, w, _. split; [reflexivity|].
  intros c e. discriminate.
Qed.

Lemma propagates_call {A} (c : libcall) (x : result A) : propagates (call c x).
Proof.
  intros w t w' r H before ev after c' e Ht Hev. injection H as <- _ <-.
  destruct before as [|b [|b' before]]; try discriminate.
  injection Ht as <- <-. split; [reflexivity|].
  simpl in Hev. injection Hev as _ Hx. destruct x; simpl in Hx; congruence.
Qed.

Lemma propagates_bind {A B} (m : M A) (k : A -> M B) :
  propagates m -> (forall a, propagates (k a)) -> propagates (bind m k).
Proof.
  intros Hm Hk w t w' r H before ev after c e Ht Hev. apply bind_run in H.
  destruct H as [(e' & H & ->) | (a & t1 & w1 & t2 & H1 & H2 & ->)].
  - destruct (Hm _ _ _ _ H _ _ _ _ _ Ht Hev) as [Ha Hr]. split; [exact Ha|].
    now injection Hr as ->.
  - apply split_app in Ht. destruct Ht as [(mid & Ht1 & ->) | (pre & -> & Ht2)].
    + destruct (Hm _ _ _ _ H1 _ _ _ _ _ Ht1 Hev) as [_ Hr]. discriminate.
    + exact (Hk a _ _ _ _ H2 _ _ _ _ _ Ht2 Hev).
Qed.

Lemma propagates_within {A} (c : container) (m : M A) :
  propagates m -> propagates (within c m).
Proof.
  intros Hm w t w' r H before ev after c' e Ht Hev. apply within_run in H.
  destruct H as (t0 & H & ->).
  apply map_eq_app in Ht. destruct Ht as (b0 & rest & -> & Hb & Hrest).
  apply map_eq_cons in Hrest. destruct Hrest as (ev0 & a0 & -> & <- & <-).
  destruct (Hm _ _ _ _ H _ _ _ _ _ eq_refl Hev) as [-> Hr]. now split.
Qed.

Ltac pass :=
  repeat first
    [ apply propagates_ret
    | apply propagates_raise
    | apply propagates_eval
    | apply propagates_call
    | apply propagates_selectbox
    | apply propagates_number_input
    | apply propagates_multiselect
    | apply propagates_emit; intros ? ?; discriminate
    | apply propagates_within
    | apply propagates_bind; [|intros ?]
    | match goal with
      | |- propagates (match ?scrutinee with _ => _ end) => destruct scrutinee
      end ].

Section Propagation.

Context (u : user) (lib : library).

Lemma propagates_display_summary_tiles summary :
  propagates (display_summary_tiles summary).
Proof. unfold display_summary_tiles, tile. pass. Qed.

Lemma propagates_display_column_summary df column :
  propagates (display_column_summary lib df column).
Proof. unfold display_column_summary, entry, px_histogram. pass. Qed.

Lemma propagates_summary_tab fd : propagates (handle_data_summary_tab u lib fd).
Proof.
  unfold handle_data_summary_tab. pass.
Qed.

Lemma propagates_analysis_dispatch fd analysis_option :
  propagates (analysis_dispatch u lib fd analysis_option).
Proof. unfold analysis_dispatch. pass. Qed.

Lemma propagates_analysis_tab fd : propagates (handle_data_analysis_tab u lib fd).
Proof. unfold handle_data_analysis_tab. pass. apply propagates_analysis_dispatch. Qed.

Lemma propagates_sidebar_filters df cols :
  forall filters, propagates (sidebar_filters u df cols filters).
Proof.
  induction cols as [|column cols IH]; intros filters; simpl; pass; apply IH.
Qed.

Lemma propagates_main db : propagates (main u lib db).
Proof.
  unfold main. pass.
  - apply propagates_sidebar_filters.
  - apply propagates_analysis_dispatch.
Qed.

End Propagation.

(** C7. [main], [handle_data_summary_tab] and [handle_data_analysis_tab]
    handle no exception: in every run, a call into [load_data], a statistics
    function or a plotting function that raises is the last thing the
    function does (nothing is retried and nothing else is tried), and the
    function ends with that same exception. *)
Theorem exceptions_propagate (u : user) (lib : library) (db : list Dataset)
    (filtered_data : DataFrame) :
  propagates (main u lib db) /\
  propagates (handle_data_summary_tab u lib filtered_data) /\
  propagates (handle_data_analysis_tab u lib filtered_data).
Proof.
  split; [apply propagates_main|].
  split; [apply propagates_summary_tab | apply propagates_analysis_tab].
Qed.

(** ** Widgets *)

Lemma choose_In {A} (i : nat) (options : list A) (a : A) :
  choose i options = Some a -> In a options.
Proof.
  destruct options as [|first options]; [discriminate|].
  intros H. injection H as <-.
  destruct (Nat.lt_ge_cases i (List.length (first :: options))) as [Hlt|Hge].
  - exact (nth_In (first :: options) first Hlt).
  - change (In (nth i (first :: options) first) (first :: options)).
    rewrite nth_overflow by exact Hge. now left.
Qed.

Lemma existsb_eqb_In (s : string) (l : list string) :
  existsb (String.eqb s) l = true <-> In s l.
Proof.
  rewrite existsb_exists. split.
  - intros (y & Hin & Heq). apply String.eqb_eq in Heq. now subst.
  - intros Hin. exists s. split; [exact Hin|apply String.eqb_refl].
Qed.

(** ** The empty catalogue *)

(** C4. When the query for the [Dataset] records returns the empty list,
    [main] writes the message that no datasets are available and returns:
    the run consists of the title, the query and the message, so no selector
    is drawn, no file is loaded and no statistics are computed. *)
Theorem main_no_datasets (u : user) (lib : library) (w : world) :
  main u lib [] w =
    ([Title "AnalytiQ"; GetDb; QueryAll;
      Write [PyStr "No datasets available. Please upload a dataset first."]],
     w, Ok tt) /\
  forallb (fun ev => negb (selector_or_call ev)) (fst (fst (main u lib [] w))) = true /\
  load_calls (fst (fst (main u lib [] w))) = [].
Proof. repeat split. Qed.

(** ** The import of the charting package *)

(** C8. When [plotly.express] can be imported the module imports it and
    runs nothing else.  When the import raises [ModuleNotFoundError] the
    module runs [pip install plotly] with the interpreter in a subprocess
    and, the installation done (exit status 0), imports [plotly.express]
    again; a failed installation raises [CalledProcessError]. *)
Theorem import_fallback (run : list string -> world -> world * Z)
    (sys_executable : string) (w : world) :
  let argv := [sys_executable; "-m"; "pip"; "install"; "plotly"] in
  (In "plotly.express" (modules w) ->
   import_plotly_express run sys_executable w =
     ([ImportModule "plotly.express"], w, Ok tt)) /\
  (~ In "plotly.express" (modules w) ->
   import_plotly_express run sys_executable w =
     if Z.eqb (snd (run argv w)) 0
     then ([ImportModule "plotly.express"; Subprocess argv; ImportModule "plotly.express"],
           fst (run argv w),
           if existsb (String.eqb "plotly.express") (modules (fst (run argv w)))
           then Ok tt else Raise (ModuleNotFoundError "plotly.express"))
     else ([ImportModule "plotly.express"; Subprocess argv],
           fst (run argv w), Raise (CalledProcessError (snd (run argv w))))).
Proof.
  intros argv. split; intros Hin.
  - apply existsb_eqb_In in Hin.
    unfold import_plotly_express, try_except, import_module. now rewrite Hin.
  - assert (Hno : existsb (String.eqb "plotly.express") (modules w) = false).
    { destruct (existsb _ _) eqn:E; [|reflexivity]. now apply existsb_eqb_In in E. }
    unfold import_plotly_express, try_except, import_module, bind, check_call.
    rewrite Hno. simpl. fold argv. destruct (run argv w) as [w1 status]. simpl.
    destruct (Z.eqb status 0); reflexivity.
Qed.

Lemma import_fallback_run :
  In "plotly.express" (modules Scenario.with_plotly) /\
  ~ In "plotly.express" (modules Scenario.without_plotly) /\
  import_plotly_express Scenario.pip "python3" Scenario.with_plotly =
    ([ImportModule "plotly.express"], Scenario.with_plotly, Ok tt) /\
  import_plotly_express Scenario.pip "python3" Scenario.without_plotly =
    ([ImportModule "plotly.express";
      Subprocess ["python3"; "-m"; "pip"; "install"; "plotly"];
      ImportModule "plotly.express"],
     Scenario.with_plotly, Ok tt).
Proof.
  assert (Hin : In "plotly.express" (modules Scenario.with_plotly)) by (simpl; auto).
  assert (Hout : ~ In "plotly.express" (modules Scenario.without_plotly))
    by (simpl; tauto).
  destruct (import_fallback Scenario.pip "python3" Scenario.with_plotly) as [Hyes _].
  destruct (import_fallback Scenario.pip "python3" Scenario.without_plotly) as [_ Hno].
  split; [exact Hin|]. split; [exact Hout|]. split.
  - exact (Hyes Hin).
  - rewrite (Hno Hout). reflexivity.
Defined.

(** ** The analysis tab *)

Lemma analysis_tab_run (u : user) (lib : library) (fd : DataFrame) (w : world)
    (analysis_option description : string) :
  choose (pick u "Select an Analysis Type") analysis_options = Some analysis_option ->
  dict_get descriptions analysis_option = Some description ->
  handle_data_analysis_tab u lib fd w =
    (let '(more, w', r) := analysis_dispatch u lib fd analysis_option w in
     ((analysis_heading analysis_option description ++ more)%list, w', r)).
Proof.
  intros Hpick Hdesc.
  unfold handle_data_analysis_tab, bind, emit, selectbox, eval, subscript.
  rewrite Hpick, Hdesc.
  destruct (analysis_dispatch u lib fd analysis_option w) as [[more w'] r].
  reflexivity.
Qed.

Lemma dispatch_shows_something (u : user) (lib : library) (fd : DataFrame) (w : world)
    (analysis_option : string) :
  In analysis_option analysis_options ->
  analysis_option <> "Cross Tabulation" ->
  existsb selector_or_call (fst (fst (analysis_dispatch u lib fd analysis_option w))) = true.
Proof.
  intros Hin Hne. simpl in Hin.
  destruct Hin as [<-|[<-|[<-|[<-|[<-|[]]]]]]; [| | | |congruence];
    unfold analysis_dispatch, bind, emit, within, selectbox, multiselect, call, ret; simpl.
  - destruct (choose _ _) as [column|]; [|reflexivity].
    match goal with |- context [if ?b then _ else _] => destruct b end; reflexivity.
  - destruct (choose (pick u "Select X-axis Column") (columns fd)) as [xc|];
      [|reflexivity].
    destruct (choose _ _) as [yc|]; [|reflexivity].
    match goal with |- context [if ?b then _ else _] => destruct b end; reflexivity.
  - destruct (ticked _ _); reflexivity.
  - reflexivity.
Qed.

(** C10. With the analysis selector on "Cross Tabulation" the analysis tab
    renders the heading and the description of the option and nothing else,
    no column selector and no call into an analysis; with any of the other
    four options it goes on, after the heading, to a column selector or to an
    analysis. *)
Theorem cross_tabulation_heading_only (u : user) (lib : library) (fd : DataFrame)
    (w : world) :
  (choose (pick u "Select an Analysis Type") analysis_options = Some "Cross Tabulation" ->
   handle_data_analysis_tab u lib fd w =
     (analysis_heading "Cross Tabulation"
        "Analyze relationships between categorical variables.", w, Ok tt)) /\
  (forall analysis_option,
     choose (pick u "Select an Analysis Type") analysis_options = Some analysis_option ->
     analysis_option <> "Cross Tabulation" ->
     exists description more w' r,
       handle_data_analysis_tab u lib fd w =
         ((analysis_heading analysis_option description ++ more)%list, w', r) /\
       existsb selector_or_call more = true).
Proof.
  split.
  - intros Hpick. now rewrite (analysis_tab_run u lib fd w _ _ Hpick eq_refl).
  - intros analysis_option Hpick Hne.
    pose proof (choose_In _ _ _ Hpick) as Hin.
    pose proof (dispatch_shows_something u lib fd w _ Hin Hne) as Hshow.
    assert (Hdesc : exists description,
               dict_get descriptions analysis_option = Some description).
    { simpl in Hin. destruct Hin as [<-|[<-|[<-|[<-|[<-|[]]]]]]; eexists; reflexivity. }
    destruct Hdesc as [description Hdesc].
    rewrite (analysis_tab_run u lib fd w _ _ Hpick Hdesc).
    destruct (analysis_dispatch u lib fd analysis_option w) as [[more w'] r].
    now exists description, more, w', r.
Qed.

Lemma cross_tabulation_heading_only_run :
  handle_data_analysis_tab Scenario.analyst Scenario.sound Scenario.sales
    Scenario.with_plotly =
    (analysis_heading "Cross Tabulation"
       "Analyze relationships between categorical variables.",
     Scenario.with_plotly, Ok tt) /\
  exists description more w' r,
    handle_data_analysis_tab Scenario.newcomer Scenario.sound Scenario.sales
      Scenario.with_plotly =
      ((analysis_heading "Univariate Analysis" description ++ more)%list, w', r) /\
    existsb selector_or_call more = true.
Proof.
  split.
  - apply (proj1 (cross_tabulation_heading_only Scenario.analyst Scenario.sound
                    Scenario.sales Scenario.with_plotly)).
    reflexivity.
  - apply (proj2 (cross_tabulation_heading_only Scenario.newcomer Scenario.sound
                    Scenario.sales Scenario.with_plotly)).
    + reflexivity.
    + discriminate.
Defined.

(** ** The distribution chart *)

Lemma subscript_present {V} (d : dict V) (k : string) :
  dict_get d k <> None -> exists v, subscript d k = Ok v.
Proof.
  unfold subscript. destruct (dict_get d k) as [v|]; [|congruence]. now exists v.
Qed.

(** C5. In [display_column_summary], on a column of the table whose summary
    has its nine entries: when the column is of a numeric dtype the one
    histogram asked for is that of the column with a box-plot marginal and
    30 bins, otherwise the one histogram asked for is that of the column
    coloured by the column; the two requests differ, exactly one of them is
    made, and the chart drawn is the histogram that came back. *)
Theorem distribution_chart_by_dtype (lib : library) (df : DataFrame) (column : string)
    (summary : dict pyval) (series : list pyval) (w : world) :
  column_summary lib df column = Ok summary ->
  (forall key, In key column_summary_keys -> dict_get summary key <> None) ->
  getitem df column = Ok series ->
  let requested :=
    if is_numeric_dtype lib series
    then numeric_histogram df column
    else categorical_histogram df column in
  let t := fst (fst (display_column_summary lib df column w)) in
  histogram_calls t = [requested] /\
  charts t = match px_histogram_error lib requested with
             | None => [Histogram requested]
             | Some _ => []
             end /\
  numeric_histogram df column <> categorical_histogram df column /\
  requested = {| data_frame := df; x := column;
                 color := if is_numeric_dtype lib series then None else Some column;
                 marginal := if is_numeric_dtype lib series then Some "box" else None;
                 nbins := if is_numeric_dtype lib series then Some 30 else None;
                 title := "Distribution of " ++ column |}.
Proof.
  intros Hsummary Hkeys Hseries requested t.
  assert (Hdiff : numeric_histogram df column <> categorical_histogram df column)
    by (unfold numeric_histogram, categorical_histogram; congruence).
  assert (Hshape : requested = {| data_frame := df; x := column;
                 color := if is_numeric_dtype lib series then None else Some column;
                 marginal := if is_numeric_dtype lib series then Some "box" else None;
                 nbins := if is_numeric_dtype lib series then Some 30 else None;
                 title := "Distribution of " ++ column |})
    by (unfold requested; destruct (is_numeric_dtype lib series); reflexivity).
  enough (histogram_calls t = [requested] /\
          charts t = match px_histogram_error lib requested with
                     | None => [Histogram requested]
                     | Some _ => []
                     end) by tauto.
  subst t. unfold display_column_summary, entry, bind at 1, call.
  rewrite Hsummary.
  unfold bind, emit, within, eval, px_histogram, call.
  repeat match goal with
  | |- context [subscript summary ?k] =>
      let v := fresh "v" in let E := fresh "E" in
      destruct (subscript_present summary k) as [v E];
      [apply Hkeys; simpl; tauto | rewrite E]
  end.
  rewrite Hseries. unfold requested.
  destruct (is_numeric_dtype lib series); simpl;
    match goal with |- context [px_histogram_error lib ?a] =>
      destruct (px_histogram_error lib a)
    end; split; reflexivity.
Qed.

(** ** The sidebar filters *)

Lemma keys_dict_set {V} (d : dict V) (k : string) (v : V) (c : string) :
  In c (keys (dict_set d k v)) <-> In c (keys d) \/ c = k.
Proof.
  induction d as [|[k' v'] d IH]; simpl.
  - intuition congruence.
  - destruct (String.eqb k' k) eqn:E; simpl.
    + apply String.eqb_eq in E. subst k'. intuition congruence.
    + rewrite IH. tauto.
Qed.

Lemma Forall_dict_set {V} (P : string * V -> Prop) (d : dict V) (k : string) (v : V) :
  Forall P d -> P (k, v) -> Forall P (dict_set d k v).
Proof.
  intros Hd Hkv. induction Hd as [|[k' v'] d Hhead Htail IH]; simpl.
  - now repeat constructor.
  - destruct (String.eqb k' k) eqn:E.
    + apply String.eqb_eq in E. subst k'. now constructor.
    + now constructor.
Qed.

Lemma getitem_column (df : DataFrame) (c : string) :
  In c (columns df) -> exists s, getitem df c = Ok s.
Proof.
  intros Hin. destruct (get_loc_In _ _ Hin) as [i Hi].
  unfold getitem. rewrite Hi. now eexists.
Qed.

Lemma repeated_NoDup (df : DataFrame) :
  NoDup (columns df) <-> (forall c, In c (columns df) -> repeated df c = false).
Proof.
  rewrite (NoDup_count_occ' string_dec). unfold repeated. split.
  - intros H c Hin. now rewrite (H c Hin).
  - intros H c Hin. specialize (H c Hin). apply Nat.ltb_ge in H.
    pose proof (proj1 (count_occ_In string_dec (columns df) c) Hin). lia.
Qed.

Lemma repeated_existsb (df : DataFrame) :
  NoDup (columns df) <-> existsb (repeated df) (columns df) = false.
Proof.
  rewrite repeated_NoDup. split.
  - intros H. destruct (existsb (repeated df) (columns df)) eqn:E; [|reflexivity].
    apply existsb_exists in E. destruct E as (c & Hin & Hc).
    rewrite (H c Hin) in Hc. discriminate.
  - intros H c Hin. destruct (repeated df c) eqn:E; [|reflexivity].
    assert (existsb (repeated df) (columns df) = true)
      by (apply existsb_exists; now exists c).
    congruence.
Qed.

Lemma column_unique_once (df : DataFrame) (c : string) (s : list pyval) :
  getitem df c = Ok s -> repeated df c = false ->
  column_unique df c = Ok (unique s).
Proof. intros Hs Hrep. unfold column_unique. now rewrite Hs, Hrep. Qed.

Lemma column_unique_repeated (df : DataFrame) (c : string) :
  In c (columns df) -> repeated df c = true ->
  column_unique df c = Raise no_unique.
Proof.
  intros Hin Hrep. destruct (getitem_column _ _ Hin) as [s Hs].
  unfold column_unique. now rewrite Hs, Hrep.
Qed.

Lemma sidebar_filters_step (u : user) (df : DataFrame) (column : string)
    (cols : list string) (filters0 : dict pyval) (w : world) (s : list pyval) :
  getitem df column = Ok s ->
  repeated df column = false ->
  sidebar_filters u df (column :: cols) filters0 w =
    if Z.of_nat (List.length (unique s)) <? 100 then
      let '(t, w', r) :=
        sidebar_filters u df cols
          (dict_set filters0 column
             (match choose (pick u ("Filter by " ++ column)) (PyNone :: unique s) with
              | Some v => v
              | None => PyNone
              end)) w in
      (filter_selector df column :: t, w', r)
    else sidebar_filters u df cols filters0 w.
Proof.
  intros Hs Hrep. cbn [sidebar_filters]. unfold bind at 1, eval.
  rewrite (column_unique_once df column s Hs Hrep).
  destruct (Z.of_nat (List.length (unique s)) <? 100).
  - unfold bind, within, selectbox, filter_selector, filter_options.
    rewrite Hs, map_id.
    match goal with |- context [sidebar_filters u df cols ?d w] =>
      destruct (sidebar_filters u df cols d w) as [[t w'] r]
    end.
    reflexivity.
  - destruct (sidebar_filters u df cols filters0 w) as [[t w'] r]. reflexivity.
Qed.

Lemma sidebar_filters_run (u : user) (df : DataFrame) (cols : list string) :
  forall filters0 w,
    (forall c, In c cols -> In c (columns df)) ->
    (forall c, In c cols -> repeated df c = false) ->
    exists filters,
      sidebar_filters u df cols filters0 w =
        (map (filter_selector df) (List.filter (filter_offered df) cols), w, Ok filters) /\
      (forall c, In c (keys filters) <->
                 In c (keys filters0) \/ (In c cols /\ filter_offered df c = true)) /\
      (sidebar_dict df filters0 -> sidebar_dict df filters).
Proof.
  induction cols as [|column cols IH]; intros filters0 w Hcols Honce.
  - exists filters0. split; [reflexivity|]. split; [simpl; tauto|auto].
  - assert (Hcol : In column (columns df)) by (apply Hcols; now left).
    destruct (getitem_column _ _ Hcol) as [s Hs].
    assert (Hrest : forall c, In c cols -> In c (columns df))
      by (intros c Hc; apply Hcols; now right).
    assert (Honce' : forall c, In c cols -> repeated df c = false)
      by (intros c Hc; apply Honce; now right).
    assert (Hoffered : filter_offered df column
                       = (Z.of_nat (List.length (unique s)) <? 100))
      by (unfold filter_offered; now rewrite Hs).
    rewrite (sidebar_filters_step u df column cols filters0 w s Hs
               (Honce column (or_introl eq_refl))).
    cbn [List.filter]. rewrite Hoffered.
    destruct (Z.of_nat (List.length (unique s)) <? 100) eqn:Hfew.
    + destruct (choose (pick u ("Filter by " ++ column)) (PyNone :: unique s))
        as [chosen|] eqn:Hchosen; [|discriminate].
      destruct (IH (dict_set filters0 column chosen) w Hrest Honce')
        as (filters & Hrun & Hkeys & Hside).
      rewrite Hrun. exists filters. split; [reflexivity|]. split.
      * intros c. rewrite Hkeys, keys_dict_set. split.
        -- intros [[H| ->]|[H1 H2]]; auto.
           ++ right. split; [now left|]. now rewrite Hoffered.
           ++ right. split; [now right|exact H2].
        -- intros [H|[[<-|H1] H2]]; auto.
      * intros H0. apply Hside. apply Forall_dict_set; [exact H0|].
        split; [exact Hcol|]. apply choose_In in Hchosen.
        destruct Hchosen as [<-|Hin]; [now left|]. right. now exists s.
    + destruct (IH filters0 w Hrest Honce') as (filters & Hrun & Hkeys & Hside).
      rewrite Hrun. exists filters. split; [reflexivity|]. split; [|exact Hside].
      intros c. rewrite Hkeys. split.
      * intros [H|[H1 H2]]; auto. right. split; [now right|exact H2].
      * intros [H|[[<-|H1] H2]]; auto. congruence.
Qed.

(** The loop on a table that holds a label more than once: it gets through
    the columns before the first such label and raises there. *)
Lemma sidebar_filters_stops (u : user) (df : DataFrame) (cols : list string) :
  forall filters0 w,
    (forall c, In c cols -> In c (columns df)) ->
    existsb (repeated df) cols = true ->
    sidebar_filters u df cols filters0 w =
      (map (filter_selector df)
         (List.filter (filter_offered df) (before_repeated df cols)),
       w, Raise no_unique).
Proof.
  induction cols as [|column cols IH]; intros filters0 w Hcols Hrep; [discriminate|].
  assert (Hcol : In column (columns df)) by (apply Hcols; now left).
  assert (Hrest : forall c, In c cols -> In c (columns df))
    by (intros c Hc; apply Hcols; now right).
  cbn [before_repeated]. destruct (repeated df column) eqn:Hhere.
  - cbn [sidebar_filters]. unfold bind, eval.
    now rewrite (column_unique_repeated df column Hcol Hhere).
  - cbn [existsb] in Hrep. rewrite Hhere in Hrep. cbn [orb] in Hrep.
    destruct (getitem_column _ _ Hcol) as [s Hs].
    assert (Hoffered : filter_offered df column
                       = (Z.of_nat (List.length (unique s)) <? 100))
      by (unfold filter_offered; now rewrite Hs).
    rewrite (sidebar_filters_step u df column cols filters0 w s Hs Hhere).
    cbn [List.filter]. rewrite Hoffered.
    destruct (Z.of_nat (List.length (unique s)) <? 100).
    + now rewrite (IH _ w Hrest Hrep).
    + now rewrite (IH _ w Hrest Hrep).
Qed.

Lemma sidebar_selectors_map (df : DataFrame) (cols : list string) :
  sidebar_selectors (map (filter_selector df) cols) =
  map (fun c => ("Filter by " ++ c, filter_options df c)) cols.
Proof. induction cols as [|c cols IH]; simpl; [reflexivity|now rewrite IH]. Qed.

(** C9. On a loaded table whose column names are distinct, the loop over
    the columns draws, in the sidebar, one selector per column with fewer
    than 100 unique values, labelled with the column and offering [None]
    followed by the column's unique values, and enters that column in the
    filter dictionary; for a column with 100 or more unique values it draws
    no selector and the column is not a key of the dictionary.  On a table
    that has a column name more than once, the loop raises [AttributeError]
    at the first column with such a name, after the selectors of the columns
    before it, and builds no dictionary. *)
Theorem filter_offered_below_100 (u : user) (df : DataFrame) (w : world) :
  (NoDup (columns df) ->
   exists filters,
     sidebar_filters u df (columns df) [] w =
       (map (filter_selector df) (List.filter (filter_offered df) (columns df)),
        w, Ok filters) /\
     forall column, In column (columns df) ->
       exists s,
         getitem df column = Ok s /\
         let t := fst (fst (sidebar_filters u df (columns df) [] w)) in
         ((List.length (unique s) < 100)%nat ->
          In ("Filter by " ++ column, PyNone :: unique s) (sidebar_selectors t) /\
          In column (keys filters)) /\
         ((100 <= List.length (unique s))%nat ->
          (forall options, ~ In ("Filter by " ++ column, options) (sidebar_selectors t)) /\
          ~ In column (keys filters) /\
          dict_get filters column = None)) /\
  (~ NoDup (columns df) ->
   sidebar_filters u df (columns df) [] w =
     (map (filter_selector df)
        (List.filter (filter_offered df) (before_repeated df (columns df))),
      w, Raise no_unique)).
Proof.
  split.
  - intros Hdistinct.
    destruct (sidebar_filters_run u df (columns df) [] w (fun c H => H)
                (proj1 (repeated_NoDup df) Hdistinct))
      as (filters & Hrun & Hkeys & _).
    exists filters. split; [exact Hrun|].
    intros column Hcol. destruct (getitem_column _ _ Hcol) as [s Hs].
    exists s. split; [exact Hs|]. rewrite Hrun. cbv zeta. simpl fst.
    rewrite sidebar_selectors_map.
    assert (Hoffered : filter_offered df column
                       = (Z.of_nat (List.length (unique s)) <? 100))
      by (unfold filter_offered; now rewrite Hs).
    split.
    + intros Hfew.
      assert (Hyes : filter_offered df column = true)
        by (rewrite Hoffered; apply Z.ltb_lt; lia).
      split.
      * apply in_map_iff. exists column. split.
        -- unfold filter_options. now rewrite Hs.
        -- apply filter_In. now split.
      * apply Hkeys. right. now split.
    + intros Hmany.
      assert (Hno : filter_offered df column = false)
        by (rewrite Hoffered; apply Z.ltb_ge; lia).
      assert (Hkey : ~ In column (keys filters)).
      { intros Hin. apply Hkeys in Hin. destruct Hin as [[]|[_ Hyes]]. congruence. }
      split; [|split; [exact Hkey|]].
      * intros options Hin. apply in_map_iff in Hin.
        destruct Hin as (c & Heq & Hc). simpl in Heq. injection Heq as Heq _. subst c.
        apply filter_In in Hc. destruct Hc as [_ Hyes]. congruence.
      * destruct (dict_get filters column) as [v|] eqn:Hget; [|reflexivity].
        exfalso. apply Hkey. clear - Hget.
        induction filters as [|[k v'] filters IH]; simpl in *; [discriminate|].
        destruct (String.eqb k column) eqn:E.
        -- apply String.eqb_eq in E. now left.
        -- right. now apply IH.
  - intros Hrepeated. apply sidebar_filters_stops; [auto|].
    destruct (existsb (repeated df) (columns df)) eqn:E; [reflexivity|].
    exfalso. apply Hrepeated. now apply repeated_existsb.
Qed.

(** ** What the tabs show comes from the table they are given *)

Lemma subscript_Ok {V} (d : dict V) (k : string) (v : V) :
  subscript d k = Ok v -> dict_get d k = Some v.
Proof. unfold subscript. destruct (dict_get d k); congruence. Qed.

Ltac plain_event :=
  split;
  [ let Hc := fresh "Hc" in
    intros ? Hc; simpl in Hc;
    first [discriminate Hc | injection Hc as <-; reflexivity]
  | simpl; auto ].

Ltac follow :=
  repeat first
    [ apply always_ret
    | apply always_raise
    | apply always_eval
    | apply always_within; [intros ? ? ?; assumption|]
    | apply always_emit; plain_event
    | apply always_call; plain_event
    | apply always_selectbox; plain_event
    | apply always_multiselect; plain_event
    | apply always_bind; [|intros ? ?]
    | match goal with
      | |- always _ (match ?scrutinee with _ => _ end) => destruct scrutinee
      end ].

Section Shown.

Context (u : user) (lib : library) (fd : DataFrame).

Lemma shown_tile c summary key :
  generate_summary lib fd = Ok summary ->
  always (from_table lib fd) (tile c summary key).
Proof.
  intros Hsummary. unfold tile. apply always_bind; [apply always_eval|].
  intros v Hv. apply returns_eval, subscript_Ok in Hv.
  apply always_within; [intros ? ? ?; assumption|].
  apply always_emit. split; [intros ? Hc; discriminate Hc|].
  simpl. now exists summary.
Qed.

Lemma shown_display_summary_tiles summary :
  generate_summary lib fd = Ok summary ->
  always (from_table lib fd) (display_summary_tiles summary).
Proof.
  intros Hsummary. unfold display_summary_tiles.
  apply always_bind; [apply always_emit; plain_event|]. intros _ _.
  repeat (apply always_bind; [now apply shown_tile|intros _ _]).
  now apply shown_tile.
Qed.

Lemma shown_entry column summary key :
  column_summary lib fd column = Ok summary ->
  always (from_table lib fd) (entry summary key).
Proof.
  intros Hsummary. unfold entry. apply always_bind; [apply always_eval|].
  intros v Hv. apply returns_eval, subscript_Ok in Hv.
  apply always_emit. split; [intros ? Hc; discriminate Hc|].
  simpl. now exists column, summary, key.
Qed.

Lemma shown_px_histogram (a : histogram_args) :
  data_frame a = fd ->
  always (from_table lib fd) (px_histogram lib a) /\
  forall fig, returns (px_histogram lib a) fig -> fig = Histogram a.
Proof.
  intros Ha. split.
  - apply always_call. split; [|exact I].
    intros t Hc. simpl in Hc. injection Hc as <-. now symmetry.
  - intros fig Hfig. apply returns_call in Hfig.
    destruct (px_histogram_error lib a); congruence.
Qed.

Lemma shown_display_column_summary column :
  always (from_table lib fd) (display_column_summary lib fd column).
Proof.
  unfold display_column_summary.
  apply always_bind; [apply always_call; plain_event|].
  intros summary Hsummary. apply returns_call in Hsummary.
  apply always_bind; [apply always_emit; plain_event|]. intros _ _.
  apply always_bind.
  { apply always_within; [intros ? ? ?; assumption|].
    repeat (apply always_bind; [now apply (shown_entry column)|intros _ _]).
    now apply (shown_entry column). }
  intros _ _. apply always_within; [intros ? ? ?; assumption|].
  apply always_bind; [apply always_emit; plain_event|]. intros _ _.
  apply always_bind; [apply always_eval|]. intros series _.
  assert (Hfig : forall a, data_frame a = fd ->
            always (from_table lib fd)
              (bind (px_histogram lib a) (fun fig => emit (PlotlyChart fig)))).
  { intros a Ha. destruct (shown_px_histogram a Ha) as [Hcall Hret].
    apply always_bind; [exact Hcall|]. intros fig Hfig.
    rewrite (Hret fig Hfig). apply always_emit. split; [|exact I].
    intros t Hc. simpl in Hc. injection Hc as <-. now symmetry. }
  destruct (is_numeric_dtype lib series); now apply Hfig.
Qed.

Lemma shown_summary_tab :
  always (from_table lib fd) (handle_data_summary_tab u lib fd).
Proof.
  unfold handle_data_summary_tab.
  apply always_bind; [apply always_emit; plain_event|]. intros _ _.
  apply always_bind; [apply always_call; plain_event|].
  intros summary Hsummary. apply returns_call in Hsummary.
  apply always_bind; [now apply shown_display_summary_tiles|]. intros _ _.
  apply always_bind; [apply always_emit; plain_event|]. intros _ _.
  apply always_within; [intros ? ? ?; assumption|].
  apply always_bind; [apply always_emit; plain_event|]. intros _ _.
  apply always_bind.
  { apply always_within; [intros ? ? ?; assumption|].
    apply always_bind; [apply always_emit; plain_event|]. intros _ _.
    apply always_bind; [apply always_call; plain_event|].
    intros stats Hstats. apply returns_call in Hstats.
    apply always_emit. split; [intros ? Hc; discriminate Hc|]. simpl. now right. }
  intros _ _. apply always_within; [intros ? ? ?; assumption|].
  apply always_bind; [apply always_emit; plain_event|]. intros _ _.
  apply always_bind; [apply always_selectbox; plain_event|].
  intros [column|] _; [|apply always_ret].
  destruct (truthy (PyStr column)); [apply shown_display_column_summary|apply always_ret].
Qed.

Lemma shown_analysis_dispatch analysis_option :
  always (from_table lib fd) (analysis_dispatch u lib fd analysis_option).
Proof. unfold analysis_dispatch. follow. Qed.

Lemma shown_analysis_tab :
  always (from_table lib fd) (handle_data_analysis_tab u lib fd).
Proof.
  unfold handle_data_analysis_tab. follow. apply shown_analysis_dispatch.
Qed.

End Shown.

(** ** The pipeline of [main] *)

Lemma find_by_name (n : string) (db : list Dataset) :
  In n (map name db) ->
  exists record, find (fun d => String.eqb (name d) n) db = Some record.
Proof.
  induction db as [|d db IH]; simpl; [contradiction|].
  intros [<-|Hin].
  - rewrite String.eqb_refl. now exists d.
  - destruct (String.eqb (name d) n); [now exists d|now apply IH].
Qed.

Lemma truthy_nonempty (s : string) : s <> "" -> truthy (PyStr s) = true.
Proof.
  intros Hs. simpl. destruct (String.eqb s "") eqn:E; [|reflexivity].
  apply String.eqb_eq in E. contradiction.
Qed.

Ltac run_bind H :=
  let e := fresh "e" in let a := fresh "a" in
  let t1 := fresh "t" in let w1 := fresh "w" in let t2 := fresh "t" in
  let Hm := fresh "Hm" in let Ht := fresh "Ht" in let Hr := fresh "Hr" in
  apply bind_run in H;
  destruct H as [(e & H & Hr) | (a & t1 & w1 & t2 & Hm & H & Ht)].

(** The run of [main] for a selected name other than the empty string:
    up to the load, and after it on a table with distinct column names and
    on a table that has a column name more than once. *)
Lemma main_anatomy (u : user) (lib : library) (db : list Dataset) (w : world)
    (dataset_name : string) :
  selected_name u db = Some dataset_name ->
  dataset_name <> "" ->
  exists record after,
    find (fun d => String.eqb (name d) dataset_name) db = Some record /\
    let loaded :=
      data_utils.load_data (read_file lib) (filepath record) (Some (row_limit u)) in
    fst (fst (main u lib db w)) =
      (selection_widgets db ++
       QueryFirst dataset_name ::
       Within (Spinner ("Loading " ++ dataset_name ++ "..."))
         (Call (LoadData (filepath record) (Some (row_limit u))) (raised loaded)) ::
       after)%list /\
    match loaded with
    | inl e => after = [] /\ snd (main u lib db w) = Raise e
    | inr selected_data =>
        (NoDup (columns selected_data) ->
         exists sidebar filters shown,
           sidebar_filters u selected_data (columns selected_data) [] w
             = (sidebar, w, Ok filters) /\
           sidebar_dict selected_data filters /\
           data_utils.apply_filters selected_data filters
             = Ok (filtered_view selected_data filters) /\
           after = (Within Sidebar (Subheader "Filter Data") :: sidebar ++
                    Call (ApplyFilters selected_data filters) None :: shown)%list /\
           Forall (from_table lib (filtered_view selected_data filters)) shown) /\
        (~ NoDup (columns selected_data) ->
         after = Within Sidebar (Subheader "Filter Data") ::
                 map (filter_selector selected_data)
                   (List.filter (filter_offered selected_data)
                      (before_repeated selected_data (columns selected_data))) /\
         snd (main u lib db w) = Raise no_unique)
    end.
Proof.
  intros Hsel Hname.
  assert (Hin : In dataset_name (map name db)) by exact (choose_In _ _ _ Hsel).
  destruct (find_by_name _ _ Hin) as [record Hfind].
  destruct db as [|d db']; [discriminate|].
  exists record.
  destruct (main u lib (d :: db') w) as [[t w'] r] eqn:Hrun.
  unfold main in Hrun. cbv zeta in Hrun.
  run_bind Hrun; [discriminate|]. injection Hm as <- <- <-.
  run_bind Hrun; [discriminate|]. injection Hm as <- <- <-.
  run_bind Hrun; [discriminate|]. injection Hm as <- <- <-.
  run_bind Hrun; [discriminate|]. injection Hm as <- <- <-.
  run_bind Hrun; [discriminate|]. injection Hm as <- <- <-.
  run_bind Hrun; [discriminate|]. injection Hm as <- <- <-.
  assert (Hnth : match pick u "Select Dataset" with
                 | O => name d
                 | S m => nth m (map name db') (name d)
                 end = dataset_name)
    by (unfold selected_name, choose in Hsel; simpl in Hsel; congruence).
  rewrite Hnth in Hrun. clear Hnth.
  change (match entered u "Number of Rows to Fetch" with
          | Some n => if n <? 1 then 1000 else n
          | None => 1000
          end) with (row_limit u) in Hrun.
  rewrite (truthy_nonempty _ Hname) in Hrun.
  run_bind Hrun; [discriminate|]. injection Hm as <- <- <-.
  rewrite Hfind in Hrun.
  run_bind Hrun; [discriminate|]. injection Hm as <- <- <-.
  set (loaded := data_utils.load_data (read_file lib) (filepath record)
                   (Some (row_limit u))) in *.
  run_bind Hrun.
  - unfold within, call in Hrun. injection Hrun as <- <- Hload.
    exists []. subst. cbn [fst snd]. split; [exact Hfind|].
    split; [reflexivity|]. rewrite Hload. now split.
  - unfold within, call in Hm. injection Hm as <- <- Hload.
    rename a into selected_data.
    run_bind Hrun; [discriminate|]. injection Hm as <- <- <-.
    destruct (existsb (repeated selected_data) (columns selected_data)) eqn:Hrep.
    + assert (Hnot : ~ NoDup (columns selected_data))
        by (intros Hd; apply repeated_existsb in Hd; congruence).
      pose proof (sidebar_filters_stops u selected_data (columns selected_data) [] w
                    (fun c H => H) Hrep) as Hstop.
      run_bind Hrun; [|rewrite Hstop in Hm; discriminate].
      rewrite Hstop in Hrun. injection Hrun as <- <- <-.
      exists (Within Sidebar (Subheader "Filter Data") ::
              map (filter_selector selected_data)
                (List.filter (filter_offered selected_data)
                   (before_repeated selected_data (columns selected_data)))).
      subst. cbn [fst snd]. split; [exact Hfind|]. split; [reflexivity|].
      rewrite Hload. split; [intros Hd; contradiction|]. intros _. now split.
    + assert (Hdistinct : NoDup (columns selected_data))
        by now apply repeated_existsb.
      destruct (sidebar_filters_run u selected_data (columns selected_data) [] w
                  (fun c H => H) (proj1 (repeated_NoDup selected_data) Hdistinct))
        as (filters & Hloop & _ & Hside).
      specialize (Hside (Forall_nil _)).
      pose proof (apply_filters_sidebar _ _ Hside) as Hview.
      run_bind Hrun; [rewrite Hloop in Hrun; discriminate|].
      rewrite Hloop in Hm. injection Hm as <- <- <-.
      run_bind Hrun; [unfold call in Hrun; rewrite Hview in Hrun; discriminate|].
      unfold call in Hm. rewrite Hview in Hm. injection Hm as <- <- <-.
      match type of Hrun with
      | ?shows w = _ => assert (Hshown : always (from_table lib
                                    (filtered_view selected_data filters)) shows)
      end.
      { apply always_bind; [apply always_emit; plain_event|]. intros _ _.
        apply always_bind;
          [apply always_within; [intros ? ? ?; assumption|apply shown_summary_tab]|].
        intros _ _.
        apply always_bind;
          [apply always_within; [intros ? ? ?; assumption|apply shown_analysis_tab]|].
        intros _ _. follow. }
      apply Hshown in Hrun.
      match type of Hrun with
      | Forall _ ?shown =>
          exists (Within Sidebar (Subheader "Filter Data") ::
                  map (filter_selector selected_data)
                    (List.filter (filter_offered selected_data)
                       (columns selected_data)) ++
                  Call (ApplyFilters selected_data filters) None :: shown)%list;
          subst; cbn [fst snd]; split; [exact Hfind|]; split; [reflexivity|];
          rewrite Hload; split; [|intros Hn; contradiction];
          intros _; eexists _, filters, shown;
          split; [exact Hloop|]; split; [exact Hside|];
          split; [exact Hview|]; split; [reflexivity|exact Hrun]
      end.
Qed.

Lemma main_pipeline (u : user) (lib : library) (db : list Dataset) (w : world)
    (dataset_name : string) :
  selected_name u db = Some dataset_name ->
  dataset_name <> "" ->
  (forall record selected_data,
     find (fun d => String.eqb (name d) dataset_name) db = Some record ->
     data_utils.load_data (read_file lib) (filepath record) (Some (row_limit u))
       = Ok selected_data ->
     NoDup (columns selected_data)) ->
  follows_pipeline u lib db w.
Proof.
  intros Hsel Hname Hdistinct.
  destruct (main_anatomy u lib db w dataset_name Hsel Hname)
    as (record & after & Hfind & Htrace & Hafter).
  exists dataset_name, record, after.
  split; [exact Hsel|]. split; [exact Hfind|]. split; [exact Htrace|].
  specialize (Hdistinct record).
  destruct (data_utils.load_data (read_file lib) (filepath record)
              (Some (row_limit u))) as [e|selected_data]; [exact Hafter|].
  exact (proj1 Hafter (Hdistinct selected_data Hfind eq_refl)).
Qed.

Lemma main_skips (u : user) (lib : library) (db : list Dataset) (w : world) :
  selected_name u db = Some "" ->
  main u lib db w = (selection_widgets db, w, Ok tt).
Proof.
  intros Hsel. destruct db as [|d db']; [discriminate|].
  unfold main, bind, emit, within, selectbox, number_input.
  cbv zeta. fold (selected_name u (d :: db')). rewrite Hsel. reflexivity.
Qed.

(** C3. For every non-empty list of [Dataset] records, every selected name
    other than the empty string and every loaded table whose column names
    are distinct, [main] follows the pipeline: it looks up the first record
    with that name, loads the file at the record's path with the row limit,
    applies the filters of the sidebar to the loaded table, and every tile,
    statistic and chart it then shows is computed from the filtered table.
    When the selected name is the empty string, [main] stops after the
    dataset selector and the row-limit field.  When the loaded table has a
    column name more than once, the loop over the columns raises
    [AttributeError] and [main] ends there, nothing filtered or shown. *)
Theorem main_follows_pipeline (u : user) (lib : library) (db : list Dataset)
    (w : world) (dataset_name : string) :
  db <> [] ->
  selected_name u db = Some dataset_name ->
  (dataset_name <> "" ->
   (forall record selected_data,
      find (fun d => String.eqb (name d) dataset_name) db = Some record ->
      data_utils.load_data (read_file lib) (filepath record) (Some (row_limit u))
        = Ok selected_data ->
      NoDup (columns selected_data)) ->
   follows_pipeline u lib db w) /\
  (dataset_name = "" -> main u lib db w = (selection_widgets db, w, Ok tt)) /\
  (dataset_name <> "" ->
   forall record selected_data,
     find (fun d => String.eqb (name d) dataset_name) db = Some record ->
     data_utils.load_data (read_file lib) (filepath record) (Some (row_limit u))
       = Ok selected_data ->
     ~ NoDup (columns selected_data) ->
     fst (fst (main u lib db w)) =
       (selection_widgets db ++
        [QueryFirst dataset_name;
         Within (Spinner ("Loading " ++ dataset_name ++ "..."))
           (Call (LoadData (filepath record) (Some (row_limit u))) None);
         Within Sidebar (Subheader "Filter Data")] ++
        map (filter_selector selected_data)
          (List.filter (filter_offered selected_data)
             (before_repeated selected_data (columns selected_data))))%list /\
     snd (main u lib db w) = Raise no_unique).
Proof.
  intros _ Hsel. split; [|split].
  - intros Hname Hdistinct.
    exact (main_pipeline u lib db w dataset_name Hsel Hname Hdistinct).
  - intros ->. now apply main_skips.
  - intros Hname record selected_data Hfind Hload Hrepeated.
    destruct (main_anatomy u lib db w dataset_name Hsel Hname)
      as (record' & after & Hfind' & Htrace & Hafter).
    rewrite Hfind in Hfind'. injection Hfind' as <-.
    rewrite Hload in Htrace, Hafter. cbv zeta in Htrace.
    destruct (proj2 Hafter Hrepeated) as [-> Hraise].
    split; [exact Htrace|exact Hraise].
Qed.

(** The pipeline is not followed for a catalogue whose record has the empty
    name: the name is selected, and nothing is looked up or loaded. *)
Lemma pipeline_skipped_for_empty_name :
  Scenario.nameless <> [] /\
  selected_name Scenario.analyst Scenario.nameless = Some "" /\
  ~ follows_pipeline Scenario.analyst Scenario.sound Scenario.nameless
      Scenario.with_plotly.
Proof.
  split; [discriminate|]. split; [reflexivity|].
  intros (dataset_name & record & after & _ & _ & Htrace & _).
  vm_compute in Htrace. discriminate Htrace.
Qed.

Lemma main_follows_pipeline_run :
  Scenario.catalogue <> [] /\
  selected_name Scenario.newcomer Scenario.catalogue = Some "sales" /\
  follows_pipeline Scenario.newcomer Scenario.sound Scenario.catalogue
    Scenario.with_plotly /\
  snd (main Scenario.newcomer Corner.stocked Corner.twice_listed Scenario.with_plotly)
    = Raise no_unique.
Proof.
  assert (Hdb : Scenario.catalogue <> []) by discriminate.
  assert (Hsel : selected_name Scenario.newcomer Scenario.catalogue = Some "sales")
    by reflexivity.
  split; [exact Hdb|]. split; [exact Hsel|]. split.
  - apply (proj1 (main_follows_pipeline Scenario.newcomer Scenario.sound
                    Scenario.catalogue Scenario.with_plotly "sales" Hdb Hsel)).
    + discriminate.
    + intros record selected_data Hfind Hload.
      injection Hfind as <-. injection Hload as <-.
      repeat constructor; simpl; intuition discriminate.
  - assert (Hlisted : Corner.twice_listed <> []) by discriminate.
    destruct (main_follows_pipeline Scenario.newcomer Corner.stocked
                Corner.twice_listed Scenario.with_plotly "twice" Hlisted eq_refl)
      as (_ & _ & Hrepeated).
    refine (proj2 (Hrepeated _ _ Corner.twice eq_refl eq_refl _)).
    + discriminate.
    + intros Hdistinct. inversion Hdistinct as [|? ? _ Hrest].
      inversion Hrest as [|? ? Hout _]. apply Hout. now left.
Defined.

(** ** The row limit *)

Lemma load_calls_app (t1 t2 : list event) :
  load_calls (t1 ++ t2) = (load_calls t1 ++ load_calls t2)%list.
Proof. apply flat_map_app. Qed.

Lemma load_calls_selectors (df : DataFrame) (cols : list string) :
  load_calls (map (filter_selector df) cols) = [].
Proof. induction cols as [|c cols IH]; simpl; [reflexivity|exact IH]. Qed.

Lemma load_calls_shown (lib : library) (fd : DataFrame) (t : list event) :
  Forall (from_table lib fd) t -> load_calls t = [].
Proof.
  induction 1 as [|ev t [_ Hev] _ IH]; [reflexivity|].
  change (load_calls (ev :: t))
    with ((match base ev with
           | Call (LoadData path limit) _ => [(path, limit)]
           | _ => []
           end) ++ load_calls t)%list.
  rewrite IH. destruct (base ev) as [| | | | | | | | | | | | | | | | | |c o|]; try reflexivity.
  destruct c; try reflexivity. contradiction.
Qed.

(** The calls of [load_data] in a run of [main]. *)
Lemma main_load_calls (u : user) (lib : library) (db : list Dataset) (w : world) :
  load_calls (fst (fst (main u lib db w))) =
  match selected_name u db with
  | Some dataset_name =>
      if String.eqb dataset_name "" then []
      else match find (fun d => String.eqb (name d) dataset_name) db with
           | Some record => [(filepath record, Some (row_limit u))]
           | None => []
           end
  | None => []
  end.
Proof.
  destruct (selected_name u db) as [dataset_name|] eqn:Hsel.
  - destruct (String.eqb dataset_name "") eqn:Hname.
    + apply String.eqb_eq in Hname. subst. now rewrite (main_skips u lib db w Hsel).
    + apply String.eqb_neq in Hname.
      destruct (main_anatomy u lib db w dataset_name Hsel Hname)
        as (record & after & Hfind & Htrace & Hafter).
      rewrite Hfind, Htrace.
      rewrite load_calls_app.
      change (load_calls (selection_widgets db)) with (@nil (string * option Z)).
      cbn [app].
      change (load_calls (?a :: ?b :: after)) with
        ((filepath record, Some (row_limit u)) :: load_calls after).
      f_equal.
      destruct (data_utils.load_data (read_file lib) (filepath record)
                  (Some (row_limit u))) as [e|selected_data].
      * now destruct Hafter as [-> _].
      * destruct Hafter as [Hdistinct Hrepeated].
        destruct (existsb (repeated selected_data) (columns selected_data)) eqn:Hrep.
        -- destruct Hrepeated as [-> _].
           { intros Hd. apply repeated_existsb in Hd. congruence. }
           change (load_calls (?a :: ?l)) with (load_calls l).
           apply load_calls_selectors.
        -- apply repeated_existsb in Hrep.
           destruct (Hdistinct Hrep)
             as (sidebar & filters & shown & Hloop & _ & _ & -> & Hshown).
           destruct (sidebar_filters_run u selected_data (columns selected_data) [] w
                       (fun c H => H) (proj1 (repeated_NoDup selected_data) Hrep))
             as (filters' & Hloop' & _).
           rewrite Hloop' in Hloop. injection Hloop as <- _.
           change (load_calls (?a :: ?l)) with (load_calls l).
           rewrite load_calls_app, load_calls_selectors.
           change (load_calls (?a :: shown)) with (load_calls shown).
           now rewrite (load_calls_shown _ _ _ Hshown).
  - destruct db; [reflexivity|discriminate].
Qed.

Lemma row_limit_positive (u : user) : 1 <= row_limit u.
Proof.
  unfold row_limit. destruct (entered u _) as [n|]; [|lia].
  destruct (Z.ltb_spec n 1); lia.
Qed.

(** C6. For every selected dataset whose name is not the empty string,
    [main] calls [load_data], once, with the path of the record that has the
    selected name and with the row limit of the number field: an integer, at
    least 1, 1000 as long as nothing was typed, never left out; and the table
    [load_data] returns for it has at most that many rows.  No call of
    [load_data] that [main] makes is without that limit, and a call is made
    whenever [main] looks a dataset up. *)
Theorem load_data_called_with_row_limit (u : user) (lib : library)
    (db : list Dataset) (w : world) :
  let t := fst (fst (main u lib db w)) in
  (forall path limit, In (path, limit) (load_calls t) ->
     limit = Some (row_limit u) /\
     1 <= row_limit u /\
     (entered u "Number of Rows to Fetch" = None -> row_limit u = 1000) /\
     forall selected_data,
       data_utils.load_data (read_file lib) path limit = Ok selected_data ->
       Z.of_nat (List.length (rows selected_data)) <= row_limit u) /\
  ((exists queried, In (QueryFirst queried) t) ->
   exists dataset_name record,
     selected_name u db = Some dataset_name /\
     find (fun d => String.eqb (name d) dataset_name) db = Some record /\
     load_calls t = [(filepath record, Some (row_limit u))]) /\
  (forall dataset_name,
     selected_name u db = Some dataset_name -> dataset_name <> "" ->
     exists record,
       find (fun d => String.eqb (name d) dataset_name) db = Some record /\
       load_calls t = [(filepath record, Some (row_limit u))]).
Proof.
  intros t. unfold t. rewrite main_load_calls.
  assert (Hmade : forall dataset_name,
            selected_name u db = Some dataset_name -> dataset_name <> "" ->
            exists record,
              find (fun d => String.eqb (name d) dataset_name) db = Some record /\
              match selected_name u db with
              | Some dataset_name =>
                  if String.eqb dataset_name "" then []
                  else match find (fun d => String.eqb (name d) dataset_name) db with
                       | Some record => [(filepath record, Some (row_limit u))]
                       | None => []
                       end
              | None => []
              end = [(filepath record, Some (row_limit u))]).
  { intros dataset_name Hsel Hname. rewrite Hsel.
    apply String.eqb_neq in Hname. rewrite Hname.
    destruct (find_by_name dataset_name db (choose_In _ _ _ Hsel)) as [record Hfind].
    rewrite Hfind. now exists record. }
  split; [|split; [|exact Hmade]].
  - intros path limit Hin.
    assert (Hlimit : limit = Some (row_limit u)).
    { destruct (selected_name u db) as [n|]; [|contradiction].
      destruct (String.eqb n ""); [contradiction|].
      destruct (find _ db); [|contradiction].
      destruct Hin as [Heq|[]]. congruence. }
    pose proof (row_limit_positive u) as Hpos.
    split; [exact Hlimit|]. split; [exact Hpos|]. split.
    + intros Hnone. unfold row_limit. now rewrite Hnone.
    + intros selected_data Hload. subst limit.
      unfold data_utils.load_data in Hload.
      destruct (read_file lib path) as [e|df]; [discriminate|].
      injection Hload as <-. simpl. rewrite length_firstn. lia.
  - intros [queried Hq].
    destruct (selected_name u db) as [dataset_name|] eqn:Hsel.
    + destruct (String.eqb dataset_name "") eqn:Hname.
      * apply String.eqb_eq in Hname. subst dataset_name.
        rewrite (main_skips u lib db w Hsel) in Hq. simpl in Hq.
        repeat (destruct Hq as [Hq|Hq]; [discriminate Hq|]). contradiction.
      * apply String.eqb_neq in Hname.
        destruct (Hmade dataset_name eq_refl Hname) as (record & Hfind & Hcalls).
        now exists dataset_name, record.
    + destruct db; [|discriminate]. simpl in Hq.
      repeat (destruct Hq as [Hq|Hq]; [discriminate Hq|]). contradiction.
Qed.

Lemma load_data_called_with_row_limit_run :
  load_calls (fst (fst (main Scenario.analyst Scenario.sound Scenario.catalogue
                          Scenario.with_plotly)))
    = [("sales.csv", Some 2)] /\
  row_limit Scenario.analyst = 2 /\
  forall selected_data,
    data_utils.load_data Scenario.disk "sales.csv" (Some 2) = Ok selected_data ->
    Z.of_nat (List.length (rows selected_data)) <= 2.
Proof.
  pose proof (load_data_called_with_row_limit Scenario.analyst Scenario.sound
                Scenario.catalogue Scenario.with_plotly) as (Hcalls & _ & Hmade).
  destruct (Hmade "sales" eq_refl ltac:(discriminate)) as (record & Hfind & Hrun).
  injection Hfind as <-.
  split; [exact Hrun|]. split; [reflexivity|].
  assert (Hin : In ("sales.csv", Some 2)
                  (load_calls (fst (fst (main Scenario.analyst Scenario.sound
                     Scenario.catalogue Scenario.with_plotly)))))
    by (rewrite Hrun; now left).
  destruct (Hcalls _ _ Hin) as (_ & _ & _ & Hrows). exact Hrows.
Defined.

(** A dataset is selected and [load_data] is not called: the record of the
    catalogue has the empty name. *)
Lemma no_load_for_empty_name :
  In (mkDataset "" "sales.csv") Scenario.nameless /\
  selected_name Scenario.analyst Scenario.nameless = Some "" /\
  load_calls (fst (fst (main Scenario.analyst Scenario.sound Scenario.nameless
                          Scenario.with_plotly))) = [] /\
  forall path limit,
    ~ In (path, limit)
        (load_calls (fst (fst (main Scenario.analyst Scenario.sound
                                 Scenario.nameless Scenario.with_plotly)))).
Proof.
  split; [now left|]. split; [reflexivity|]. split; [reflexivity|].
  intros path limit Hin. exact Hin.
Qed.

(** ** Concrete runs *)

Lemma distribution_chart_by_dtype_run :
  histogram_calls
    (fst (fst (display_column_summary Scenario.sound Scenario.sales "units"
                 Scenario.with_plotly)))
    = [{| data_frame := Scenario.sales; x := "units"; color := None;
          marginal := Some "box"; nbins := Some 30;
          title := "Distribution of units" |}] /\
  histogram_calls
    (fst (fst (display_column_summary Scenario.sound Scenario.sales "region"
                 Scenario.with_plotly)))
    = [{| data_frame := Scenario.sales; x := "region"; color := Some "region";
          marginal := None; nbins := None;
          title := "Distribution of region" |}].
Proof.
  assert (Hkeys : forall column key, In key column_summary_keys ->
            dict_get (Scenario.column_summary_of Scenario.sales column) key <> None).
  { intros column key Hin. simpl in Hin.
    repeat (destruct Hin as [<-|Hin]; [discriminate|]). contradiction. }
  split.
  - exact (proj1 (distribution_chart_by_dtype Scenario.sound Scenario.sales "units"
                    _ _ Scenario.with_plotly eq_refl (Hkeys "units") eq_refl)).
  - exact (proj1 (distribution_chart_by_dtype Scenario.sound Scenario.sales "region"
                    _ _ Scenario.with_plotly eq_refl (Hkeys "region") eq_refl)).
Defined.

Lemma exceptions_propagate_run :
  exists t w',
    main Scenario.analyst Scenario.broken Scenario.catalogue Scenario.with_plotly
      = (t, w', Raise (OtherError "ValueError" "no rows")) /\
    exists before filtered_data,
      t = (before ++ [Within (Tab 0) (Call (GenerateSummary filtered_data)
                                       (Some (OtherError "ValueError" "no rows")))])%list.
Proof.
  destruct (exceptions_propagate Scenario.analyst Scenario.broken Scenario.catalogue
              Scenario.sales) as [Hmain _].
  destruct (main Scenario.analyst Scenario.broken Scenario.catalogue
              Scenario.with_plotly) as [[t w'] r] eqn:Hrun.
  assert (Ht : exists before filtered_data after,
            t = (before ++ Within (Tab 0)
                   (Call (GenerateSummary filtered_data)
                      (Some (OtherError "ValueError" "no rows"))) :: after)%list).
  { vm_compute in Hrun. injection Hrun as <- _ _.
    eexists (_ :: _ :: _ :: _ :: _ :: _ :: _ :: _ :: _ :: _ :: _ :: _ :: _ :: _ :: []),
      _, _.
    reflexivity. }
  destruct Ht as (before & filtered_data & after & Ht).
  destruct (Hmain _ _ _ _ Hrun _ _ _ _ _ Ht eq_refl) as [-> ->].
  exists t, w'. split; [reflexivity|]. now exists before, filtered_data.
Defined.

Lemma filter_offered_below_100_run :
  NoDup (columns Scenario.ledger) /\
  (exists filters,
     sidebar_filters Scenario.newcomer Scenario.ledger (columns Scenario.ledger) []
       Scenario.with_plotly
       = ([Within Sidebar (Selectbox "Filter by kind" [PyNone; PyStr "sale"])],
          Scenario.with_plotly, Ok filters) /\
     In "kind" (keys filters) /\
     ~ In "id" (keys filters) /\
     dict_get filters "id" = None) /\
  ~ NoDup (columns Corner.twice) /\
  sidebar_filters Scenario.newcomer Corner.twice (columns Corner.twice) []
    Scenario.with_plotly
    = ([Within Sidebar (Selectbox "Filter by region" [PyNone; PyStr "north"])],
       Scenario.with_plotly, Raise no_unique).
Proof.
  assert (Hdistinct : NoDup (columns Scenario.ledger))
    by (repeat constructor; simpl; intuition discriminate).
  assert (Hrepeated : ~ NoDup (columns Corner.twice)).
  { intros Hd. inversion Hd as [|? ? _ Hrest].
    inversion Hrest as [|? ? Hout _]. apply Hout. now left. }
  split; [exact Hdistinct|]. split; [|split; [exact Hrepeated|]].
  - destruct (proj1 (filter_offered_below_100 Scenario.newcomer Scenario.ledger
                       Scenario.with_plotly) Hdistinct) as (filters & Hrun & Hcolumns).
    exists filters. split; [rewrite Hrun; reflexivity|].
    destruct (Hcolumns "kind" ltac:(simpl; auto)) as (kinds & Hkinds & Hfew & _).
    destruct (Hcolumns "id" ltac:(simpl; auto)) as (ids & Hids & _ & Hmany).
    vm_compute in Hkinds. injection Hkinds as <-.
    vm_compute in Hids. injection Hids as <-.
    split.
    + apply Hfew. apply Nat.ltb_lt. vm_compute. reflexivity.
    + apply Hmany. apply Nat.leb_le. vm_compute. reflexivity.
  - rewrite (proj2 (filter_offered_below_100 Scenario.newcomer Corner.twice
                      Scenario.with_plotly) Hrepeated).
    reflexivity.
Defined.

(** On a table that has the column name [kind] twice no selector is drawn
    for it, few as its values are: the loop raises when it reaches it. *)
Lemma no_filter_for_repeated_column :
  In "kind" (columns Corner.twice) /\
  (exists s, getitem Corner.twice "kind" = Ok s /\ (List.length (unique s) < 100)%nat) /\
  (forall options,
     ~ In ("Filter by kind", options)
         (sidebar_selectors
            (fst (fst (sidebar_filters Scenario.newcomer Corner.twice
                         (columns Corner.twice) [] Scenario.with_plotly))))) /\
  snd (sidebar_filters Scenario.newcomer Corner.twice (columns Corner.twice) []
         Scenario.with_plotly) = Raise no_unique.
Proof.
  split; [simpl; auto|]. split.
  - exists [PyStr "a"]. split; [reflexivity|]. simpl. lia.
  - split; [|reflexivity].
    intros options Hin. vm_compute in Hin.
    destruct Hin as [Hin|[]]. discriminate Hin.
Qed.

(** * Further properties of the page *)

(** ** The summary tiles *)

(** X1. [display_summary_tiles] draws the three columns and then the tiles
    in order, up to the first key the summary lacks: with the five keys
    present it draws five tiles (two, two and one per column) and returns;
    otherwise it raises [KeyError] for the first missing key, the tiles of
    the keys before it drawn and none after. *)
Theorem display_summary_tiles_outcome (summary : dict pyval) (w : world) :
  display_summary_tiles summary w =
    (Columns 3 :: tiles_drawn summary tile_layout, w,
     match first_missing summary (map snd tile_layout) with
     | None => Ok tt
     | Some k => Raise (KeyError k)
     end) /\
  (first_missing summary (map snd tile_layout) = None <->
   List.length (tiles_drawn summary tile_layout) = 5%nat).
Proof.
  unfold display_summary_tiles, tile, bind, emit, within, eval, subscript.
  cbn [tiles_drawn tile_layout first_missing map snd].
  destruct (dict_get summary "Number of Rows");
    [|split; [reflexivity|split; discriminate]].
  destruct (dict_get summary "Number of Columns");
    [|split; [reflexivity|split; discriminate]].
  destruct (dict_get summary "Missing Values");
    [|split; [reflexivity|split; discriminate]].
  destruct (dict_get summary "Duplicate Rows");
    [|split; [reflexivity|split; discriminate]].
  destruct (dict_get summary "Memory Usage (MB)");
    [|split; [reflexivity|split; discriminate]].
  split; [reflexivity|split; reflexivity].
Qed.

(** ** The column summary *)

Lemma getitem_missing (df : DataFrame) (c : string) :
  ~ In c (columns df) -> getitem df c = Raise (KeyError c).
Proof.
  intros Hout. unfold getitem.
  destruct (get_loc c (columns df)) as [i|] eqn:Hloc; [|reflexivity].
  exfalso. apply Hout. now apply (get_loc_Some c (columns df) i).
Qed.

(** The whole run of [display_column_summary], case by case. *)
Lemma display_column_summary_run (lib : library) (df : DataFrame)
    (column : string) (w : world) :
  display_column_summary lib df column w =
    match column_summary lib df column with
    | inl e => ([Call (ColumnSummary df column) (Some e)], w, Raise e)
    | inr summary =>
        let drawn := (Call (ColumnSummary df column) None :: Columns 2 ::
                      entries_drawn summary column_summary_keys)%list in
        match first_missing summary column_summary_keys with
        | Some k => (drawn, w, Raise (KeyError k))
        | None =>
            let heading := Within (Column 1) (Subheader ("Distribution of " ++ column)) in
            match getitem df column with
            | inl e => ((drawn ++ [heading])%list, w, Raise e)
            | inr series =>
                let a := requested_histogram lib df column series in
                match px_histogram_error lib a with
                | Some e =>
                    ((drawn ++ [heading;
                                Within (Column 1) (Call (PxHistogram a) (Some e))])%list,
                     w, Raise e)
                | None =>
                    ((drawn ++ [heading;
                                Within (Column 1) (Call (PxHistogram a) None);
                                Within (Column 1) (PlotlyChart (Histogram a))])%list,
                     w, Ok tt)
                end
            end
        end
    end.
Proof.
  unfold display_column_summary, entry, bind at 1, call.
  destruct (column_summary lib df column) as [e|summary]; [reflexivity|].
  unfold bind, emit, within, eval, px_histogram, call, subscript, requested_histogram.
  cbn [first_missing entries_drawn column_summary_keys raised].
  repeat match goal with
  | |- context [dict_get summary ?k] => destruct (dict_get summary k); [|reflexivity]
  end.
  destruct (getitem df column) as [e|series]; [reflexivity|].
  destruct (is_numeric_dtype lib series);
    match goal with |- context [px_histogram_error lib ?a] =>
      destruct (px_histogram_error lib a)
    end; reflexivity.
Qed.

Lemma entries_drawn_quiet (summary : dict pyval) (ks : list string) :
  histogram_calls (entries_drawn summary ks) = [] /\
  charts (entries_drawn summary ks) = [].
Proof.
  induction ks as [|k ks [IH1 IH2]]; [now split|].
  cbn [entries_drawn]. destruct (dict_get summary k); [|now split].
  split; [exact IH1|exact IH2].
Qed.

Lemma histogram_calls_app (t1 t2 : list event) :
  histogram_calls (t1 ++ t2) = (histogram_calls t1 ++ histogram_calls t2)%list.
Proof. apply flat_map_app. Qed.

Lemma charts_app (t1 t2 : list event) :
  charts (t1 ++ t2) = (charts t1 ++ charts t2)%list.
Proof. apply flat_map_app. Qed.

(** X2. The ways [display_column_summary] fails: when [column_summary]
    raises, the call is all that happened and its exception comes out; when
    the summary lacks one of the nine keys, [KeyError] for the first missing
    key comes out; when the summary is complete but the column is not in the
    table, [KeyError] for the column comes out.  In none of these runs is a
    histogram asked for or a chart drawn, and a chart is only ever drawn in a
    run that returns normally. *)
Theorem display_column_summary_failures (lib : library) (df : DataFrame)
    (column : string) (w : world) :
  let run := display_column_summary lib df column w in
  (forall e, column_summary lib df column = Raise e ->
     run = ([Call (ColumnSummary df column) (Some e)], w, Raise e)) /\
  (forall summary k,
     column_summary lib df column = Ok summary ->
     first_missing summary column_summary_keys = Some k ->
     snd run = Raise (KeyError k) /\
     histogram_calls (fst (fst run)) = [] /\ charts (fst (fst run)) = []) /\
  (forall summary,
     column_summary lib df column = Ok summary ->
     first_missing summary column_summary_keys = None ->
     ~ In column (columns df) ->
     snd run = Raise (KeyError column) /\
     histogram_calls (fst (fst run)) = [] /\ charts (fst (fst run)) = []) /\
  (charts (fst (fst run)) <> [] -> snd run = Ok tt).
Proof.
  intros run. subst run. rewrite display_column_summary_run.
  assert (Hdrawn : forall summary,
            histogram_calls (Call (ColumnSummary df column) None :: Columns 2 ::
                             entries_drawn summary column_summary_keys) = [] /\
            charts (Call (ColumnSummary df column) None :: Columns 2 ::
                    entries_drawn summary column_summary_keys) = []).
  { intros summary. exact (entries_drawn_quiet summary column_summary_keys). }
  split; [|split; [|split]].
  - intros e He. now rewrite He.
  - intros summary k Hs Hk. rewrite Hs. cbv zeta. rewrite Hk. cbn [fst snd].
    split; [reflexivity|apply Hdrawn].
  - intros summary Hs Hk Hout. rewrite Hs. cbv zeta. rewrite Hk.
    rewrite (getitem_missing _ _ Hout). cbn [fst snd].
    split; [reflexivity|]. rewrite histogram_calls_app, charts_app.
    destruct (Hdrawn summary) as [-> ->]. now split.
  - destruct (column_summary lib df column) as [e|summary];
      [intros Hc; now contradiction Hc|].
    cbv zeta. destruct (Hdrawn summary) as [_ Hc0].
    destruct (first_missing summary column_summary_keys);
      [cbn [fst snd]; intros Hc; now rewrite Hc0 in Hc|].
    destruct (getitem df column) as [e|series].
    + cbn [fst snd]. rewrite charts_app, Hc0. intros Hc. now contradiction Hc.
    + destruct (px_histogram_error lib _); cbn [fst snd]; [|reflexivity].
      rewrite charts_app, Hc0. intros Hc. now contradiction Hc.
Qed.

Lemma display_column_summary_failures_run :
  (snd (display_column_summary Scenario.sound Scenario.sales "price" Scenario.with_plotly)
     = Raise (KeyError "price") /\
   histogram_calls
     (fst (fst (display_column_summary Scenario.sound Scenario.sales "price"
                  Scenario.with_plotly))) = []) /\
  (snd (display_column_summary Corner.terse Scenario.sales "region" Scenario.with_plotly)
     = Raise (KeyError "Unique Values") /\
   histogram_calls
     (fst (fst (display_column_summary Corner.terse Scenario.sales "region"
                  Scenario.with_plotly))) = []).
Proof.
  split.
  - destruct (display_column_summary_failures Scenario.sound Scenario.sales "price"
                Scenario.with_plotly) as (_ & _ & Hcolumn & _).
    destruct (Hcolumn _ eq_refl eq_refl) as (Hr & Hh & _).
    + simpl. intuition discriminate.
    + now split.
  - destruct (display_column_summary_failures Corner.terse Scenario.sales "region"
                Scenario.with_plotly) as (_ & Hkey & _).
    destruct (Hkey _ "Unique Values" eq_refl eq_refl) as (Hr & Hh & _).
    now split.
Defined.

(** ** What the tabs ask of the other modules *)

Lemma calls_app (t1 t2 : list event) :
  calls (t1 ++ t2) = (calls t1 ++ calls t2)%list.
Proof. apply flat_map_app. Qed.

Lemma calls_ok (P : libcall -> Prop) (t : list event) :
  Forall (call_ok P) t -> forall c, In c (calls t) -> P c.
Proof.
  induction 1 as [|ev t Hev _ IH]; intros c Hin; [contradiction|].
  change (calls (ev :: t))
    with ((match base ev with Call c' _ => [c'] | _ => [] end) ++ calls t)%list in Hin.
  apply in_app_or in Hin. destruct Hin as [Hin|Hin]; [|now apply IH].
  unfold call_ok in Hev. destruct (base ev); try contradiction.
  destruct Hin as [<-|[]]. exact Hev.
Qed.

Lemma returns_selectbox {A} (show : A -> pyval) (u : user) (label : string)
    (options : list A) (a : option A) :
  returns (selectbox show u label options) a -> a = choose (pick u label) options.
Proof. intros (w & t & w' & H). now injection H as _ _ <-. Qed.

Lemma returns_multiselect (u : user) (label : string) (options selected : list string) :
  returns (multiselect u label options) selected ->
  selected = ticked (picks u label) options.
Proof. intros (w & t & w' & H). now injection H as _ _ <-. Qed.

Lemma truthy_name (s : string) : truthy (PyStr s) = true -> s <> "".
Proof. intros H ->. discriminate H. Qed.

Lemma ticked_incl {A} (positions : list nat) (options : list A) :
  incl (ticked positions options) options.
Proof.
  induction positions as [|i positions IH]; simpl; [intros a []|].
  destruct (nth_error options i) as [o|] eqn:Hnth; [|exact IH].
  intros a [<-|Hin]; [now apply (nth_error_In options i)|now apply IH].
Qed.

Ltac quiet_event := first [exact I | cbn; auto].

Ltac ask :=
  repeat first
    [ apply always_ret
    | apply always_raise
    | apply always_eval
    | apply always_within; [intros ? ? ?; assumption|]
    | apply always_emit; quiet_event
    | apply always_selectbox; quiet_event
    | apply always_multiselect; quiet_event
    | apply always_bind; [|intros ? ?] ].

Section Requests.

Context (u : user) (lib : library) (fd : DataFrame).

Lemma asked_display_column_summary column :
  In column (columns fd) -> column <> "" ->
  always (call_ok (summary_request_ok fd)) (display_column_summary lib fd column).
Proof.
  intros Hin Hname. unfold display_column_summary.
  apply always_bind; [apply always_call; cbn; auto|]. intros summary _.
  apply always_bind; [apply always_emit; exact I|]. intros _ _.
  apply always_bind; [unfold entry; ask|]. intros _ _.
  apply always_within; [intros ? ? ?; assumption|].
  apply always_bind; [apply always_emit; exact I|]. intros _ _.
  apply always_bind; [apply always_eval|]. intros series _.
  apply always_bind; [|intros fig _; apply always_emit; exact I].
  destruct (is_numeric_dtype lib series); apply always_call; cbn; auto.
Qed.

Lemma asked_summary_tab :
  always (call_ok (summary_request_ok fd)) (handle_data_summary_tab u lib fd).
Proof.
  unfold handle_data_summary_tab.
  apply always_bind; [apply always_emit; exact I|]. intros _ _.
  apply always_bind; [apply always_call; reflexivity|]. intros summary _.
  apply always_bind; [unfold display_summary_tiles, tile; ask|]. intros _ _.
  apply always_bind; [apply always_emit; exact I|]. intros _ _.
  apply always_within; [intros ? ? ?; assumption|].
  apply always_bind; [apply always_emit; exact I|]. intros _ _.
  apply always_bind.
  { apply always_within; [intros ? ? ?; assumption|].
    apply always_bind; [apply always_emit; exact I|]. intros _ _.
    apply always_bind; [apply always_call; reflexivity|]. intros stats _.
    apply always_emit. exact I. }
  intros _ _. apply always_within; [intros ? ? ?; assumption|].
  apply always_bind; [apply always_emit; exact I|]. intros _ _.
  apply always_bind; [apply always_selectbox; exact I|].
  intros [column|] Hsel; [|apply always_ret].
  apply returns_selectbox in Hsel. symmetry in Hsel. apply choose_In in Hsel.
  destruct (truthy (PyStr column)) eqn:Htruthy; [|apply always_ret].
  apply asked_display_column_summary; [exact Hsel|now apply truthy_name].
Qed.

Lemma asked_analysis_dispatch analysis_option :
  always (call_ok (analysis_request_ok fd)) (analysis_dispatch u lib fd analysis_option).
Proof.
  unfold analysis_dispatch.
  destruct (String.eqb analysis_option "Univariate Analysis").
  { apply always_bind; [apply always_selectbox; exact I|].
    intros [column|] Hsel; [|apply always_ret].
    apply returns_selectbox in Hsel. symmetry in Hsel. apply choose_In in Hsel.
    destruct (truthy (PyStr column)) eqn:Htruthy; [|apply always_ret].
    apply always_call. cbn. split; [reflexivity|]. split; [exact Hsel|].
    now apply truthy_name. }
  destruct (String.eqb analysis_option "Bivariate Analysis").
  { apply always_bind; [apply always_emit; exact I|]. intros _ _.
    apply always_bind;
      [apply always_within; [intros ? ? ?; assumption|apply always_selectbox; exact I]|].
    intros x_column Hx. apply returns_within, returns_selectbox in Hx.
    apply always_bind;
      [apply always_within; [intros ? ? ?; assumption|apply always_selectbox; exact I]|].
    intros y_column Hy. apply returns_within, returns_selectbox in Hy.
    destruct x_column as [xc|]; [|apply always_ret].
    destruct y_column as [yc|]; [|apply always_ret].
    symmetry in Hx, Hy. apply choose_In in Hx. apply choose_In in Hy.
    destruct (truthy (PyStr xc)) eqn:Htx; [|apply always_ret].
    destruct (truthy (PyStr yc)) eqn:Hty; [|apply always_ret].
    apply always_call. cbn. repeat split; auto using truthy_name. }
  destruct (String.eqb analysis_option "Multivariate Analysis").
  { apply always_bind; [apply always_multiselect; exact I|].
    intros selected Hsel. apply returns_multiselect in Hsel.
    destruct selected as [|c selected]; [apply always_ret|].
    apply always_call. cbn. split; [reflexivity|]. split; [discriminate|].
    rewrite Hsel. apply ticked_incl. }
  destruct (String.eqb analysis_option "Correlation Analysis").
  { apply always_call. reflexivity. }
  apply always_ret.
Qed.

Lemma asked_analysis_tab :
  always (call_ok (analysis_request_ok fd)) (handle_data_analysis_tab u lib fd).
Proof.
  unfold handle_data_analysis_tab.
  apply always_bind; [apply always_emit; exact I|]. intros _ _.
  apply always_bind; [apply always_emit; exact I|]. intros _ _.
  apply always_bind; [apply always_selectbox; exact I|].
  intros [analysis_option|] _; [|apply always_raise].
  apply always_bind; [apply always_eval|]. intros description _.
  apply always_bind; [apply always_emit; exact I|]. intros _ _.
  apply always_bind; [apply always_emit; exact I|]. intros _ _.
  apply always_bind; [apply always_emit; exact I|]. intros _ _.
  apply asked_analysis_dispatch.
Qed.

End Requests.

(** X3. Whatever the user has set, the summary tab asks only for the
    summary and the statistics of the table it was given and for the summary
    and the histogram of a column of that table whose name is not the empty
    string.  The first call is [generate_summary], and when it raises nothing
    else is called; for a table without columns no column is ever
    summarised or charted. *)
Theorem summary_tab_requests (u : user) (lib : library) (fd : DataFrame) (w : world) :
  let t := fst (fst (handle_data_summary_tab u lib fd w)) in
  (forall c, In c (calls t) -> summary_request_ok fd c) /\
  (exists rest, calls t = GenerateSummary fd :: rest) /\
  (forall e, generate_summary lib fd = Raise e -> calls t = [GenerateSummary fd]) /\
  (columns fd = [] ->
   forall c, In c (calls t) -> c = GenerateSummary fd \/ c = DetailedStatistics fd).
Proof.
  intros t.
  assert (Hok : forall c, In c (calls t) -> summary_request_ok fd c).
  { subst t. destruct (handle_data_summary_tab u lib fd w) as [[t w'] r] eqn:Hrun.
    apply calls_ok. exact (asked_summary_tab u lib fd _ _ _ _ Hrun). }
  split; [exact Hok|]. split; [|split].
  - subst t. unfold handle_data_summary_tab, bind at 1 2, emit, call.
    destruct (generate_summary lib fd) as [e|summary]; [now exists []|].
    match goal with |- context [bind ?m ?k w] =>
      destruct (bind m k w) as [[t' w'] r]
    end.
    now exists (calls t').
  - intros e He. subst t. unfold handle_data_summary_tab, bind at 1 2, emit, call.
    now rewrite He.
  - intros Hempty c Hin. specialize (Hok c Hin).
    destruct c; simpl in Hok; try contradiction.
    + left. now subst.
    + right. now subst.
    + rewrite Hempty in Hok. now destruct Hok as (_ & [] & _).
    + rewrite Hempty in Hok. now destruct Hok as (_ & [] & _).
Qed.

Lemma summary_tab_requests_run :
  calls (fst (fst (handle_data_summary_tab Scenario.newcomer Scenario.broken
                     Scenario.sales Scenario.with_plotly)))
    = [GenerateSummary Scenario.sales] /\
  forall c,
    In c (calls (fst (fst (handle_data_summary_tab Scenario.newcomer Scenario.sound
                             (mkDataFrame [] []) Scenario.with_plotly)))) ->
    c = GenerateSummary (mkDataFrame [] []) \/ c = DetailedStatistics (mkDataFrame [] []).
Proof.
  split.
  - destruct (summary_tab_requests Scenario.newcomer Scenario.broken Scenario.sales
                Scenario.with_plotly) as (_ & _ & Hraise & _).
    exact (Hraise _ eq_refl).
  - destruct (summary_tab_requests Scenario.newcomer Scenario.sound (mkDataFrame [] [])
                Scenario.with_plotly) as (_ & _ & _ & Hempty).
    exact (Hempty eq_refl).
Defined.

Lemma analysis_option_described (u : user) :
  exists analysis_option description,
    choose (pick u "Select an Analysis Type") analysis_options = Some analysis_option /\
    dict_get descriptions analysis_option = Some description.
Proof.
  destruct (choose (pick u "Select an Analysis Type") analysis_options)
    as [analysis_option|] eqn:Hpick; [|discriminate].
  pose proof (choose_In _ _ _ Hpick) as Hin. simpl in Hin.
  destruct Hin as [<-|[<-|[<-|[<-|[<-|[]]]]]]; eexists _, _; split; reflexivity.
Qed.

Lemma dispatch_calls_once (u : user) (lib : library) (fd : DataFrame) (w : world)
    (analysis_option : string) :
  (List.length (calls (fst (fst (analysis_dispatch u lib fd analysis_option w)))) <= 1)%nat.
Proof.
  unfold analysis_dispatch, bind, emit, within, selectbox, multiselect, call, ret.
  destruct (String.eqb analysis_option "Univariate Analysis").
  { destruct (choose _ (columns fd)) as [column|]; [|cbn; lia].
    destruct (truthy (PyStr column)); cbn; lia. }
  destruct (String.eqb analysis_option "Bivariate Analysis").
  { destruct (choose (pick u "Select X-axis Column") (columns fd)) as [xc|];
      [|cbn; lia].
    destruct (choose (pick u "Select Y-axis Column") (columns fd)) as [yc|];
      [|cbn; lia].
    destruct (truthy (PyStr xc) && truthy (PyStr yc)); cbn; lia. }
  destruct (String.eqb analysis_option "Multivariate Analysis").
  { destruct (ticked _ (columns fd)); cbn; lia. }
  destruct (String.eqb analysis_option "Correlation Analysis"); cbn; lia.
Qed.

(** X4. Whatever the user has set, the analysis tab makes at most one call,
    and only into one of the four analyses, on the table it was given: the
    univariate and bivariate analyses on columns of the table whose names
    are not the empty string, the multivariate analysis on a non-empty
    selection of columns of the table.  The correlation analysis is asked
    for whenever its option is selected, whatever the table holds; on a table
    without columns it is the only analysis that can be asked for. *)
Theorem analysis_tab_requests (u : user) (lib : library) (fd : DataFrame) (w : world) :
  let t := fst (fst (handle_data_analysis_tab u lib fd w)) in
  (forall c, In c (calls t) -> analysis_request_ok fd c) /\
  (List.length (calls t) <= 1)%nat /\
  (choose (pick u "Select an Analysis Type") analysis_options
     = Some "Correlation Analysis" ->
   calls t = [DisplayCorrelation fd]) /\
  (columns fd = [] -> forall c, In c (calls t) -> c = DisplayCorrelation fd).
Proof.
  intros t.
  assert (Hok : forall c, In c (calls t) -> analysis_request_ok fd c).
  { subst t. destruct (handle_data_analysis_tab u lib fd w) as [[t w'] r] eqn:Hrun.
    apply calls_ok. exact (asked_analysis_tab u lib fd _ _ _ _ Hrun). }
  split; [exact Hok|]. split; [|split].
  - subst t. destruct (analysis_option_described u) as (opt & description & Hpick & Hdesc).
    rewrite (analysis_tab_run u lib fd w _ _ Hpick Hdesc).
    pose proof (dispatch_calls_once u lib fd w opt) as Hone.
    destruct (analysis_dispatch u lib fd opt w) as [[more w'] r].
    cbn [fst snd] in *. rewrite calls_app. exact Hone.
  - intros Hpick. subst t. rewrite (analysis_tab_run u lib fd w _ _ Hpick eq_refl).
    reflexivity.
  - intros Hempty c Hin. specialize (Hok c Hin).
    destruct c; simpl in Hok; try contradiction.
    + rewrite Hempty in Hok. now destruct Hok as (_ & [] & _).
    + rewrite Hempty in Hok. now destruct Hok as (_ & [] & _).
    + rewrite Hempty in Hok. destruct Hok as (_ & Hsel & Hincl).
      destruct selected as [|s selected]; [congruence|].
      destruct (Hincl s (or_introl eq_refl)).
    + now subst.
Qed.

Lemma analysis_tab_requests_run :
  calls (fst (fst (handle_data_analysis_tab
                     (mkUser (fun _ => 3%nat) (fun _ => None) (fun _ => []))
                     Scenario.sound (mkDataFrame [] []) Scenario.with_plotly)))
    = [DisplayCorrelation (mkDataFrame [] [])].
Proof.
  destruct (analysis_tab_requests
              (mkUser (fun _ => 3%nat) (fun _ => None) (fun _ => []))
              Scenario.sound (mkDataFrame [] []) Scenario.with_plotly)
    as (_ & _ & Hcorrelation & _).
  exact (Hcorrelation eq_refl).
Defined.

(** ** The values of the filter dictionary *)

Lemma dict_get_set_same {V} (d : dict V) (k : string) (v : V) :
  dict_get (dict_set d k v) k = Some v.
Proof.
  induction d as [|[k' v'] d IH]; simpl.
  - now rewrite String.eqb_refl.
  - destruct (String.eqb k' k) eqn:E; simpl; rewrite E; [reflexivity|exact IH].
Qed.

Lemma dict_get_set_other {V} (d : dict V) (k k' : string) (v : V) :
  k' <> k -> dict_get (dict_set d k v) k' = dict_get d k'.
Proof.
  intros Hne. induction d as [|[k0 v0] d IH]; simpl.
  - destruct (String.eqb k k') eqn:E; [|reflexivity].
    apply String.eqb_eq in E. congruence.
  - destruct (String.eqb k0 k) eqn:E; simpl.
    + apply String.eqb_eq in E. subst k0.
      destruct (String.eqb k k') eqn:E'; [|reflexivity].
      apply String.eqb_eq in E'. congruence.
    + now rewrite IH.
Qed.

Lemma NoDup_keys_dict_set {V} (d : dict V) (k : string) (v : V) :
  NoDup (keys d) -> NoDup (keys (dict_set d k v)).
Proof.
  induction d as [|[k' v'] d IH]; simpl; intros Hd.
  - constructor; [intros []|constructor].
  - inversion Hd as [|? ? Hout Hrest]; subst.
    destruct (String.eqb k' k) eqn:E; simpl.
    + now constructor.
    + constructor; [|now apply IH].
      intros Hin. apply (keys_dict_set d k v k') in Hin.
      destruct Hin as [Hin| ->]; [contradiction|].
      now rewrite String.eqb_refl in E.
Qed.

Lemma dict_get_In {V} (d : dict V) (k : string) (v : V) :
  NoDup (keys d) -> In (k, v) d -> dict_get d k = Some v.
Proof.
  induction d as [|[k' v'] d IH]; simpl; intros Hd Hin; [contradiction|].
  inversion Hd as [|? ? Hout Hrest]; subst.
  destruct Hin as [Heq|Hin].
  - injection Heq as -> ->. now rewrite String.eqb_refl.
  - destruct (String.eqb k' k) eqn:E; [|now apply IH].
    apply String.eqb_eq in E. subst k'. exfalso. apply Hout.
    apply in_map_iff. now exists (k, v).
Qed.

Lemma sidebar_filters_values (u : user) (df : DataFrame) (cols : list string) :
  forall filters0 w,
    (forall c, In c cols -> In c (columns df)) ->
    (forall c, In c cols -> repeated df c = false) ->
    exists t filters,
      sidebar_filters u df cols filters0 w = (t, w, Ok filters) /\
      (NoDup (keys filters0) -> NoDup (keys filters)) /\
      (forall c, In c cols -> filter_offered df c = true ->
                 dict_get filters c = Some (filter_choice u df c)) /\
      (forall c, ~ (In c cols /\ filter_offered df c = true) ->
                 dict_get filters c = dict_get filters0 c).
Proof.
  induction cols as [|column cols IH]; intros filters0 w Hcols Honce.
  - exists [], filters0. split; [reflexivity|]. split; [auto|]. split; [intros c []|auto].
  - assert (Hcol : In column (columns df)) by (apply Hcols; now left).
    destruct (getitem_column _ _ Hcol) as [s Hs].
    assert (Hrest : forall c, In c cols -> In c (columns df))
      by (intros c Hc; apply Hcols; now right).
    assert (Hoffered : filter_offered df column
                       = (Z.of_nat (List.length (unique s)) <? 100))
      by (unfold filter_offered; now rewrite Hs).
    assert (Honce' : forall c, In c cols -> repeated df c = false)
      by (intros c Hc; apply Honce; now right).
    assert (Hchoice : match choose (pick u ("Filter by " ++ column)) (PyNone :: unique s) with
                      | Some v => v
                      | None => PyNone
                      end = filter_choice u df column)
      by (unfold filter_choice, filter_options; now rewrite Hs).
    rewrite (sidebar_filters_step u df column cols filters0 w s Hs
               (Honce column (or_introl eq_refl))), Hchoice.
    destruct (Z.of_nat (List.length (unique s)) <? 100) eqn:Hfew.
    + destruct (IH (dict_set filters0 column (filter_choice u df column)) w Hrest Honce')
        as (t & filters & Hrun & Hnodup & Hin & Hout).
      rewrite Hrun. eexists _, filters. split; [reflexivity|]. split; [|split].
      * intros H0. now apply Hnodup, NoDup_keys_dict_set.
      * intros c Hc Hyes.
        destruct (in_dec string_dec c cols) as [Hc'|Hc']; [now apply Hin|].
        destruct Hc as [<-|Hc]; [|contradiction].
        rewrite Hout by tauto. apply dict_get_set_same.
      * intros c Hno. rewrite Hout by (simpl in Hno; tauto).
        apply dict_get_set_other. intros ->. apply Hno.
        split; [now left|congruence].
    + destruct (IH filters0 w Hrest Honce')
        as (t & filters & Hrun & Hnodup & Hin & Hout).
      rewrite Hrun. exists t, filters. split; [reflexivity|]. split; [exact Hnodup|].
      split.
      * intros c [<-|Hc] Hyes; [congruence|now apply Hin].
      * intros c Hno. apply Hout. simpl in Hno. tauto.
Qed.

(** X5. On a table whose column names are distinct, the filter dictionary
    the sidebar loop builds has one entry per column with fewer than 100
    unique values, and the value it holds for such a column is the option
    picked in that column's selector.  As long as every selector stands on
    its first option, every value of the dictionary is [None]. *)
Theorem sidebar_filters_hold_the_picks (u : user) (df : DataFrame) (w : world) :
  NoDup (columns df) ->
  exists t filters,
    sidebar_filters u df (columns df) [] w = (t, w, Ok filters) /\
    NoDup (keys filters) /\
    (forall column, In column (columns df) -> filter_offered df column = true ->
       dict_get filters column = Some (filter_choice u df column)) /\
    (forall column, dict_get filters column <> None ->
       In column (columns df) /\ filter_offered df column = true) /\
    ((forall label, pick u label = O) ->
     forall column value, In (column, value) filters -> value = PyNone).
Proof.
  intros Hdistinct.
  destruct (sidebar_filters_values u df (columns df) [] w (fun c H => H)
              (proj1 (repeated_NoDup df) Hdistinct))
    as (t & filters & Hrun & Hnodup & Hin & Hout).
  specialize (Hnodup (NoDup_nil _)).
  assert (Hkeys : forall column, dict_get filters column <> None ->
            In column (columns df) /\ filter_offered df column = true).
  { intros column Hget.
    destruct (in_dec string_dec column (columns df)) as [Hc|Hc].
    - destruct (filter_offered df column) eqn:Hyes; [now split|].
      rewrite Hout in Hget by (intros [_ H]; congruence). now contradiction Hget.
    - rewrite Hout in Hget by tauto. now contradiction Hget. }
  exists t, filters. split; [exact Hrun|]. split; [exact Hnodup|]. split; [exact Hin|].
  split; [exact Hkeys|].
  intros Hfirst column value Hentry.
  pose proof (dict_get_In _ _ _ Hnodup Hentry) as Hget.
  destruct (Hkeys column) as [Hc Hyes]; [congruence|].
  rewrite (Hin column Hc Hyes) in Hget. injection Hget as <-.
  unfold filter_choice. rewrite Hfirst.
  unfold filter_options. now destruct (getitem df column).
Qed.

Lemma sidebar_filters_hold_the_picks_run :
  NoDup (columns Scenario.sales) /\
  exists t filters,
    sidebar_filters Scenario.analyst Scenario.sales (columns Scenario.sales) []
      Scenario.with_plotly = (t, Scenario.with_plotly, Ok filters) /\
    dict_get filters "region" = Some (PyStr "north") /\
    dict_get filters "units" = Some PyNone.
Proof.
  assert (Hdistinct : NoDup (columns Scenario.sales))
    by (repeat constructor; simpl; intuition discriminate).
  split; [exact Hdistinct|].
  destruct (sidebar_filters_hold_the_picks Scenario.analyst Scenario.sales
              Scenario.with_plotly Hdistinct) as (t & filters & Hrun & _ & Hpicks & _).
  exists t, filters. split; [exact Hrun|]. split.
  - apply (Hpicks "region"); [simpl; auto|reflexivity].
  - apply (Hpicks "units"); [simpl; auto|reflexivity].
Defined.

(** ** The import block, seen from after it *)

(** X6. When the import block returns normally, [plotly.express] can be
    imported in the world it leaves; when [plotly.express] could be imported
    to begin with, the block changes nothing and starts no subprocess.  When
    it raises, the module was missing, [pip] was run, and the exception is
    [CalledProcessError] for a non-zero exit status or [ModuleNotFoundError]
    for a module still missing after an installation that reported
    success. *)
Theorem import_block_outcome (run : list string -> world -> world * Z)
    (sys_executable : string) (w : world) :
  let argv := [sys_executable; "-m"; "pip"; "install"; "plotly"] in
  let t := fst (fst (import_plotly_express run sys_executable w)) in
  let w' := snd (fst (import_plotly_express run sys_executable w)) in
  match snd (import_plotly_express run sys_executable w) with
  | inr _ => In "plotly.express" (modules w')
  | inl e =>
      ~ In "plotly.express" (modules w) /\
      In (Subprocess argv) t /\
      ((e = CalledProcessError (snd (run argv w)) /\ snd (run argv w) <> 0) \/
       (e = ModuleNotFoundError "plotly.express" /\ snd (run argv w) = 0 /\
        ~ In "plotly.express" (modules w')))
  end /\
  (In "plotly.express" (modules w) -> w' = w /\ ~ In (Subprocess argv) t).
Proof.
  intros argv t w'. subst t w'.
  unfold import_plotly_express, try_except, import_module, bind, check_call.
  fold argv.
  destruct (existsb (String.eqb "plotly.express") (modules w)) eqn:Hhas.
  - apply existsb_eqb_In in Hhas. cbn [fst snd is_ModuleNotFoundError].
    split; [exact Hhas|]. intros _. split; [reflexivity|].
    intros [H|[]]. discriminate H.
  - assert (Hno : ~ In "plotly.express" (modules w)).
    { intros Hin. apply existsb_eqb_In in Hin. congruence. }
    cbn [fst snd is_ModuleNotFoundError].
    destruct (run argv w) as [w1 status]. cbn [fst snd].
    destruct (Z.eqb status 0) eqn:Hstatus; cbn [fst snd app].
    + apply Z.eqb_eq in Hstatus.
      destruct (existsb (String.eqb "plotly.express") (modules w1)) eqn:Hnow;
        cbn [fst snd].
      * split; [now apply existsb_eqb_In|tauto].
      * split; [|tauto]. split; [exact Hno|]. split; [simpl; auto|].
        right. split; [reflexivity|]. split; [exact Hstatus|].
        intros Hin. apply existsb_eqb_In in Hin. congruence.
    + apply Z.eqb_neq in Hstatus. split; [|tauto].
      split; [exact Hno|]. split; [simpl; auto|]. left. now split.
Qed.

Lemma import_block_outcome_run :
  In "plotly.express"
    (modules (snd (fst (import_plotly_express Scenario.pip "python3"
                          Scenario.without_plotly)))).
Proof.
  exact (proj1 (import_block_outcome Scenario.pip "python3" Scenario.without_plotly)).
Defined.

(** ** Records that share a name *)

Lemma find_first {A} (f : A -> bool) (l : list A) (a : A) :
  find f l = Some a ->
  exists before after,
    l = (before ++ a :: after)%list /\ f a = true /\
    forall b, In b before -> f b = false.
Proof.
  induction l as [|b l IH]; simpl; [discriminate|].
  destruct (f b) eqn:Hb.
  - intros H. injection H as <-. exists [], l. split; [reflexivity|]. split; [exact Hb|].
    intros b' [].
  - intros H. destruct (IH H) as (before & after & -> & Ha & Hbefore).
    exists (b :: before), after. split; [reflexivity|]. split; [exact Ha|].
    intros b' [<-|Hin]; [exact Hb|now apply Hbefore].
Qed.

(** X7. The file [main] loads is always that of the first record, in the
    order of the query, that has the selected name: a record whose name an
    earlier record has too is never loaded, whichever entry of the selector
    is picked. *)
Theorem later_namesake_never_loaded (u : user) (lib : library) (db : list Dataset)
    (w : world) (path : string) (limit : option Z) :
  In (path, limit) (load_calls (fst (fst (main u lib db w)))) ->
  exists before record after,
    db = (before ++ record :: after)%list /\
    path = filepath record /\
    selected_name u db = Some (name record) /\
    forall earlier, In earlier before -> name earlier <> name record.
Proof.
  rewrite main_load_calls.
  destruct (selected_name u db) as [dataset_name|]; [|contradiction].
  destruct (String.eqb dataset_name ""); [contradiction|].
  destruct (find (fun d => String.eqb (name d) dataset_name) db) as [record|] eqn:Hfind;
    [|contradiction].
  intros [Heq|[]]. injection Heq as <- _.
  destruct (find_first _ _ _ Hfind) as (before & after & Hdb & Hname & Hbefore).
  apply String.eqb_eq in Hname. subst dataset_name.
  exists before, record, after. split; [exact Hdb|]. split; [reflexivity|].
  split; [reflexivity|].
  intros earlier Hin Heq. specialize (Hbefore earlier Hin).
  rewrite Heq, String.eqb_refl in Hbefore. discriminate.
Qed.

Lemma later_namesake_never_loaded_run :
  let twins := [mkDataset "sales" "sales.csv"; mkDataset "sales" "ledger.csv"] in
  let second := mkUser (fun _ => 1%nat) (fun _ => None) (fun _ => []) in
  load_calls (fst (fst (main second Scenario.sound twins Scenario.with_plotly)))
    = [("sales.csv", Some 1000)] /\
  exists before record after,
    twins = (before ++ record :: after)%list /\
    "sales.csv" = filepath record /\
    forall earlier, In earlier before -> name earlier <> name record.
Proof.
  intros twins second.
  assert (Hcalls : load_calls (fst (fst (main second Scenario.sound twins
                                           Scenario.with_plotly)))
                   = [("sales.csv", Some 1000)]) by (vm_compute; reflexivity).
  split; [exact Hcalls|].
  destruct (later_namesake_never_loaded second Scenario.sound twins Scenario.with_plotly
              "sales.csv" (Some 1000))
    as (before & record & after & Hdb & Hpath & _ & Hfirst).
  - rewrite Hcalls. now left.
  - now exists before, record, after.
Defined.

(** ** Where the exceptions of the page come from *)

Section Failures.

Context (lib : library).

Lemma fails_never {A} (m : M A) :
  (forall w, exists t w' a, m w = (t, w', Ok a)) -> fails_only_by_call lib m.
Proof.
  intros Hm w t w' e H. destruct (Hm w) as (t0 & w0 & a & H0). congruence.
Qed.

Lemma fails_ret {A} (a : A) : fails_only_by_call lib (ret a).
Proof. apply fails_never. intros w. now exists [], w, a. Qed.

Lemma fails_emit (ev : event) : fails_only_by_call lib (emit ev).
Proof. apply fails_never. intros w. now exists [ev], w, tt. Qed.

Lemma fails_selectbox {A} (show : A -> pyval) u label (options : list A) :
  fails_only_by_call lib (selectbox show u label options).
Proof. apply fails_never. intros w. now eexists _, w, _. Qed.

Lemma fails_number_input u label lo v step :
  fails_only_by_call lib (number_input u label lo v step).
Proof. apply fails_never. intros w. now eexists _, w, _. Qed.

Lemma fails_multiselect u label options :
  fails_only_by_call lib (multiselect u label options).
Proof. apply fails_never. intros w. now eexists _, w, _. Qed.

Lemma fails_eval_ok {A} (a : A) : fails_only_by_call lib (eval (Ok a)).
Proof. apply fails_never. intros w. now exists [], w, a. Qed.

Lemma fails_call {A} (c : libcall) (x : result A) : fails_only_by_call lib (call c x).
Proof.
  intros w t w' e H. injection H as <- _ Hx. left.
  exists [], (Call c (raised x)), c. split; [reflexivity|]. now rewrite Hx.
Qed.

Lemma fails_bind {A B} (m : M A) (k : A -> M B) :
  fails_only_by_call lib m ->
  (forall a, returns m a -> fails_only_by_call lib (k a)) ->
  fails_only_by_call lib (bind m k).
Proof.
  intros Hm Hk w t w' e H. apply bind_run in H.
  destruct H as [(e' & H & He) | (a & t1 & w1 & t2 & H1 & H2 & ->)].
  - injection He as <-. exact (Hm _ _ _ _ H).
  - assert (Hret : returns m a) by now exists w, t1, w1.
    destruct (Hk a Hret _ _ _ _ H2) as [(before & ev & c & -> & Hev)|Hown];
      [|now right].
    left. exists (t1 ++ before)%list, ev, c. now rewrite app_assoc.
Qed.

Lemma fails_within {A} (c : container) (m : M A) :
  fails_only_by_call lib m -> fails_only_by_call lib (within c m).
Proof.
  intros Hm w t w' e H. apply within_run in H. destruct H as (t0 & H & ->).
  destruct (Hm _ _ _ _ H) as [(before & ev & c' & -> & Hev)|Hown]; [|now right].
  left. exists (map (Within c) before), (Within c ev), c'.
  split; [now rewrite map_app|exact Hev].
Qed.

Lemma subscript_Raise {V} (d : dict V) (k : string) (e : exn) :
  subscript d k = Raise e -> e = KeyError k /\ dict_get d k = None.
Proof.
  unfold subscript. destruct (dict_get d k); [discriminate|].
  intros H. now injection H as <-.
Qed.

Lemma fails_tile fd c summary key :
  generate_summary lib fd = Ok summary -> In key (map snd tile_layout) ->
  fails_only_by_call lib (tile c summary key).
Proof.
  intros Hsummary Hkey. unfold tile. apply fails_bind.
  - intros w t w' e H. injection H as _ _ H. apply subscript_Raise in H.
    destruct H as [-> Hnone]. right. exists fd, key. split; [reflexivity|].
    left. now exists summary.
  - intros v _. apply fails_within, fails_emit.
Qed.

Lemma fails_display_summary_tiles fd summary :
  generate_summary lib fd = Ok summary ->
  fails_only_by_call lib (display_summary_tiles summary).
Proof.
  intros Hsummary. unfold display_summary_tiles.
  apply fails_bind; [apply fails_emit|]. intros _ _.
  repeat (apply fails_bind;
          [apply (fails_tile fd); [exact Hsummary|simpl; tauto]|intros _ _]).
  apply (fails_tile fd); [exact Hsummary|simpl; tauto].
Qed.

Lemma fails_entry fd column summary key :
  column_summary lib fd column = Ok summary -> In key column_summary_keys ->
  fails_only_by_call lib (entry summary key).
Proof.
  intros Hsummary Hkey. unfold entry. apply fails_bind.
  - intros w t w' e H. injection H as _ _ H. apply subscript_Raise in H.
    destruct H as [-> Hnone]. right. exists fd, key. split; [reflexivity|].
    right. now exists column, summary.
  - intros v _. apply fails_emit.
Qed.

Lemma fails_display_column_summary fd column :
  In column (columns fd) ->
  fails_only_by_call lib (display_column_summary lib fd column).
Proof.
  intros Hin. unfold display_column_summary.
  apply fails_bind; [apply fails_call|]. intros summary Hsummary.
  apply returns_call in Hsummary.
  apply fails_bind; [apply fails_emit|]. intros _ _.
  apply fails_bind.
  { apply fails_within.
    repeat (apply fails_bind;
            [apply (fails_entry fd column); [exact Hsummary|simpl; tauto]|intros _ _]).
    apply (fails_entry fd column); [exact Hsummary|simpl; tauto]. }
  intros _ _. apply fails_within.
  apply fails_bind; [apply fails_emit|]. intros _ _.
  destruct (getitem_column _ _ Hin) as [series ->].
  apply fails_bind; [apply fails_eval_ok|]. intros series' _.
  apply fails_bind; [|intros fig _; apply fails_emit].
  destruct (is_numeric_dtype lib series'); apply fails_call.
Qed.

Lemma fails_summary_tab u fd :
  fails_only_by_call lib (handle_data_summary_tab u lib fd).
Proof.
  unfold handle_data_summary_tab.
  apply fails_bind; [apply fails_emit|]. intros _ _.
  apply fails_bind; [apply fails_call|]. intros summary Hsummary.
  apply returns_call in Hsummary.
  apply fails_bind; [now apply (fails_display_summary_tiles fd)|]. intros _ _.
  apply fails_bind; [apply fails_emit|]. intros _ _.
  apply fails_within.
  apply fails_bind; [apply fails_emit|]. intros _ _.
  apply fails_bind.
  { apply fails_within.
    apply fails_bind; [apply fails_emit|]. intros _ _.
    apply fails_bind; [apply fails_call|]. intros stats _. apply fails_emit. }
  intros _ _. apply fails_within.
  apply fails_bind; [apply fails_emit|]. intros _ _.
  apply fails_bind; [apply fails_selectbox|].
  intros [column|] Hsel; [|apply fails_ret].
  apply returns_selectbox in Hsel. symmetry in Hsel. apply choose_In in Hsel.
  destruct (truthy (PyStr column)); [|apply fails_ret].
  now apply fails_display_column_summary.
Qed.

Lemma fails_analysis_dispatch u fd analysis_option :
  fails_only_by_call lib (analysis_dispatch u lib fd analysis_option).
Proof.
  unfold analysis_dispatch.
  repeat first
    [ apply fails_ret
    | apply fails_emit
    | apply fails_call
    | apply fails_selectbox
    | apply fails_multiselect
    | apply fails_within
    | apply fails_bind; [|intros ? _]
    | match goal with
      | |- fails_only_by_call _ (match ?scrutinee with _ => _ end) => destruct scrutinee
      end ].
Qed.

Lemma fails_analysis_tab u fd :
  fails_only_by_call lib (handle_data_analysis_tab u lib fd).
Proof.
  unfold handle_data_analysis_tab.
  apply fails_bind; [apply fails_emit|]. intros _ _.
  apply fails_bind; [apply fails_emit|]. intros _ _.
  apply fails_bind; [apply fails_selectbox|].
  intros selected Hsel. apply returns_selectbox in Hsel.
  destruct selected as [analysis_option|]; [|discriminate Hsel].
  symmetry in Hsel. apply choose_In in Hsel.
  assert (Hdesc : exists description,
             subscript descriptions analysis_option = Ok description).
  { simpl in Hsel. destruct Hsel as [<-|[<-|[<-|[<-|[<-|[]]]]]]; eexists; reflexivity. }
  destruct Hdesc as [description ->].
  apply fails_bind; [apply fails_eval_ok|]. intros description' _.
  apply fails_bind; [apply fails_emit|]. intros _ _.
  apply fails_bind; [apply fails_emit|]. intros _ _.
  apply fails_bind; [apply fails_emit|]. intros _ _.
  apply fails_analysis_dispatch.
Qed.

End Failures.

(** X8. An exception that comes out of one of the two tab handlers is
    either the exception of a call into another module, that call being the
    last thing done, or a [KeyError] for a key missing from a summary that
    [generate_summary] or [column_summary] returned.  The lookups of the
    tabs themselves never fail: a selected column is always a column of the
    table and every analysis option has its description. *)
Theorem page_exceptions_come_from_calls (u : user) (lib : library)
    (filtered_data : DataFrame) :
  fails_only_by_call lib (handle_data_summary_tab u lib filtered_data) /\
  fails_only_by_call lib (handle_data_analysis_tab u lib filtered_data).
Proof.
  split; [apply fails_summary_tab|apply fails_analysis_tab].
Qed.

Lemma page_exceptions_come_from_calls_run :
  snd (handle_data_summary_tab Scenario.newcomer Corner.terse Scenario.sales
         Scenario.with_plotly) = Raise (KeyError "Number of Columns") /\
  missing_summary_key Corner.terse (KeyError "Number of Columns").
Proof.
  split; [reflexivity|].
  destruct (page_exceptions_come_from_calls Scenario.newcomer Corner.terse
              Scenario.sales) as (Hsummary & _).
  assert (Hrun : handle_data_summary_tab Scenario.newcomer Corner.terse Scenario.sales
                   Scenario.with_plotly
                 = ([Header "Data Summary";
                     Call (GenerateSummary Scenario.sales) None;
                     Columns 3;
                     Within (Column 0) (Metric "Number of Rows" (PyInt 0))],
                    Scenario.with_plotly, Raise (KeyError "Number of Columns")))
    by reflexivity.
  destruct (Hsummary _ _ _ _ Hrun) as [(before & ev & c & Ht & Hev)|Hown];
    [|exact Hown].
  exfalso.
  apply (f_equal (fun l => last l (Title ""))) in Ht.
  rewrite last_last in Ht. simpl in Ht. subst ev. discriminate Hev.
Defined.
